(** * scrapeErowid.py: a shallow embedding and its properties

    The script drives a browser over a list of report links, extracts a
    record per page and merges the records into a CSV table in batches.
    The embedding follows the script function by function:

    - text helpers used by the script ([strip], [splitlines], the [in]
      test on strings, the removal of "by" from the author line, the last
      field of the ban heading);
    - the pandas table ([DataFrame]) with [drop_duplicates(subset="Link")];
    - the browser and the parsed page ([Page], [GetResult]);
    - [get_all_report_links], [scrape_erowid_reports] (its loop body is
      [body], the loop is [loop]) and [remove_duplicates_from_csv];
    - console output, browser calls and file writes are recorded, in
      order, in the [trace] of the [World].

    What lives outside the script is a parameter of the development:
    the CSV reader and writer of pandas, the iteration order of a Python
    [set], and the answer of the web site to a request. Module [Pandas]
    gives one reader and writer that type the columns anew on every
    read, to run the cleanup pass on concrete files. *)

From Stdlib Require Import List Bool Arith Lia Ascii String Permutation.
From Stdlib Require Import DecimalString.
Import ListNotations.

Local Open Scope string_scope.
Local Open Scope list_scope.
Local Open Scope bool_scope.

Set Implicit Arguments.

(** ** Text helpers *)

Module Text.

(** ASCII characters for which Python's [str.isspace] holds. *)
Definition is_space (c : ascii) : bool :=
  let n := nat_of_ascii c in
  (((9 <=? n) && (n <=? 13)) || ((28 <=? n) && (n <=? 32)))%nat.

Fixpoint lstrip (s : string) : string :=
  match s with
  | EmptyString => EmptyString
  | String c t => if is_space c then lstrip t else s
  end.

Fixpoint rstrip (s : string) : string :=
  match s with
  | EmptyString => EmptyString
  | String c t =>
      let t' := rstrip t in
      if is_space c && (t' =? EmptyString) then EmptyString else String c t'
  end.

(** [s.strip()] *)
Definition strip (s : string) : string := rstrip (lstrip s).

(** [needle in hay] on strings. *)
Fixpoint contains (needle hay : string) : bool :=
  prefix needle hay ||
  match hay with
  | EmptyString => false
  | String _ t => contains needle t
  end.

(** [s.replace] of "by" by the empty string: every occurrence, left to
    right. *)
Fixpoint replace_by (s : string) : string :=
  match s with
  | EmptyString => EmptyString
  | String c t =>
      match t with
      | String c' t' =>
          if Ascii.eqb c "b"%char && Ascii.eqb c' "y"%char then replace_by t'
          else String c (replace_by t)
      | EmptyString => s
      end
  end.

(** [s.split(": ")[-1]]: what follows the last ": ". *)
Fixpoint last_field_from (cur s : string) : string :=
  match s with
  | EmptyString => cur
  | String c t =>
      match t with
      | String c' t' =>
          if Ascii.eqb c ":"%char && Ascii.eqb c' " "%char then last_field_from EmptyString t'
          else last_field_from (cur ++ String c EmptyString) t
      | EmptyString => cur ++ String c EmptyString
      end
  end.

Definition last_field (s : string) : string := last_field_from EmptyString s.

(** Line boundaries of [str.splitlines] in the ASCII range. *)
Definition is_linebreak (c : ascii) : bool :=
  let n := nat_of_ascii c in
  (((10 <=? n) && (n <=? 13)) || ((28 <=? n) && (n <=? 30)))%nat.

(** [s.splitlines()]: a "\r\n" pair is one boundary, and a final
    boundary opens no empty last line. *)
Fixpoint splitlines_from (cur s : string) : list string :=
  match s with
  | EmptyString => if cur =? EmptyString then [] else [cur]
  | String c t =>
      if is_linebreak c then
        match t with
        | String c' t' =>
            if Ascii.eqb c "013"%char && Ascii.eqb c' "010"%char
            then cur :: splitlines_from EmptyString t'
            else cur :: splitlines_from EmptyString t
        | EmptyString => cur :: splitlines_from EmptyString t
        end
      else splitlines_from (cur ++ String c EmptyString) t
  end.

Definition splitlines (s : string) : list string := splitlines_from EmptyString s.

(** [x in s] for a collection of strings used as a set. *)
Definition mem (x : string) (s : list string) : bool :=
  existsb (String.eqb x) s.

End Text.
Import Text.

(** ** The table of pandas *)

(** A cell read from the CSV file is a string or missing (pandas' NaN). *)
Definition Cell := option string.

Definition Cell_eqb (a b : Cell) : bool :=
  match a, b with
  | Some x, Some y => String.eqb x y
  | None, None => true
  | _, _ => false
  end.

(** One row of the Report Table, with its seven columns. *)
Record Row := mkRow {
  col_Title : Cell;
  col_Substance : Cell;
  col_Author : Cell;
  col_Bodyweight : Cell;
  col_Dose_Chart : Cell;
  col_Report_Text : Cell;
  col_Link : Cell
}.

Definition DataFrame := list Row.

(** The dictionary the scraper appends to [all_data]. *)
Record Report := mkReport {
  Title : string;
  Substance : string;
  Author : string;
  Bodyweight : string;
  Dose_Chart : string;
  Report_Text : string;
  Link : string
}.

Definition row_of_report (r : Report) : Row :=
  {| col_Title := Some (Title r);
     col_Substance := Some (Substance r);
     col_Author := Some (Author r);
     col_Bodyweight := Some (Bodyweight r);
     col_Dose_Chart := Some (Dose_Chart r);
     col_Report_Text := Some (Report_Text r);
     col_Link := Some (Link r) |}.

(** [pd.DataFrame(all_data)] *)
Definition DataFrame_of (all_data : list Report) : DataFrame :=
  map row_of_report all_data.

Definition mem_cell (k : Cell) (seen : list Cell) : bool :=
  existsb (Cell_eqb k) seen.

(** [df.drop_duplicates(subset="Link")] keeps, for every value of the
    Link column, the first row that carries it; missing values count as
    equal to one another. [seen] holds the keys of the rows kept so far. *)
Fixpoint drop_duplicates_from (seen : list Cell) (df : DataFrame) : DataFrame :=
  match df with
  | [] => []
  | r :: rest =>
      if mem_cell (col_Link r) seen then drop_duplicates_from seen rest
      else r :: drop_duplicates_from (col_Link r :: seen) rest
  end.

Definition drop_duplicates (df : DataFrame) : DataFrame :=
  drop_duplicates_from [] df.

(** [df["Link"]] *)
Definition Link_column (df : DataFrame) : list Cell := map col_Link df.

(** [series.dropna().tolist()] *)
Fixpoint dropna (col : list Cell) : list string :=
  match col with
  | [] => []
  | Some x :: rest => x :: dropna rest
  | None :: rest => dropna rest
  end.

(** ** The browser and the parsed page *)

(** What the script reads from the browser after [driver.get] and from
    the BeautifulSoup tree of the page: the answer of every selector the
    script uses. An element found is given by its text, [None] is the
    [None] of [soup.find]. *)
Record Page := mkPage {
  page_source : string;                 (* driver.page_source *)
  current_url : string;                 (* driver.current_url *)
  anchors : list string;                (* href of the //a[contains(@href, 'exp.php?ID=')] *)
  h2 : option string;                   (* soup.find("h2") *)
  div_title : option string;            (* soup.find("div", class_="title") *)
  div_substance : option string;        (* soup.find("div", class_="substance") *)
  div_author : option string;           (* soup.find("div", class_="author") *)
  td_bodyweight : option string;        (* soup.find("td", class_="bodyweight-amount") *)
  dosechart_rows : list (list string);  (* the td texts of each table.dosechart tbody tr *)
  div_report_text : option (list string) (* the strings under div.report-text-surround *)
}.

(** [driver.get(url)] loads a page or raises [TimeoutException]. *)
Inductive GetResult :=
| Loaded (p : Page)
| TimedOut.

Inductive Exn :=
| TimeoutException
| AttributeError.

Inductive Result (A : Type) :=
| Ok (a : A)
| Raised (e : Exn).
Arguments Ok {A} a.
Arguments Raised {A} e.

(** How one turn of the [for] loop ends. *)
Inductive Ctl :=
| Next              (* fell through, or [continue] *)
| Break             (* [break] *)
| Raise (e : Exn).  (* an exception nobody catches *)

(** ** Constants of the script *)

Definition BASE_URL : string :=
  "https://www.erowid.org/experiences/exp.cgi?ShowViews=0&Cellar=0&Start=0&Max=39877".
Definition LINKS_FILE : string := "erowid_links.txt".
Definition REPORTS_FILE : string := "Erowid_Trip_Reports.csv".
Definition BATCH_SIZE : nat := 100.

Definition SITE : string := "https://www.erowid.org".
Definition BAN_SIGNATURE : string :=
  "403 Forbidden: Your IP Address Has Been Blocked".
Definition NL : string := String "010"%char EmptyString.

(** ** Console, browser and file events *)

Inductive Msg :=
| MsgLoadingLinks
| MsgScrapingIndex (url : string)
| MsgFinishedLinks
| MsgRemaining (n : nat)
| MsgSkipInvalid (href : string)
| MsgTimeout (href : string)
| MsgBanned (ip_address : string)
| MsgStopped (processed_count : nat)
| MsgRedirected (url : string)
| MsgSaved (batch : nat)
| MsgFinished (processed_count : nat)
| MsgRemoved (n : nat).

Inductive Event :=
| EvGet (url : string)     (* driver.get(url), answered or timed out *)
| EvQuit                   (* driver.quit() *)
| EvWrite (path : string)  (* a file is written *)
| EvPrint (m : Msg).       (* print(...) *)

(** ** Field extraction (lines 94 to 126) *)

Definition stripped_strings (strings : list string) : list string :=
  filter (fun s => negb (s =? EmptyString)) (map strip strings).

Definition dose_chart_entries (rows : list (list string)) : list string :=
  flat_map
    (fun cols =>
       if Nat.eqb (List.length cols) 5
       then [String.concat " | " (map strip cols)]
       else [])
    rows.

Definition extract (p : Page) (href : string) : Report :=
  let title :=
    match div_title p with Some t => strip t | None => "Unknown Title" end in
  let substance :=
    match div_substance p with Some t => strip t | None => "Unknown Substance" end in
  let author :=
    match div_author p with Some t => strip (replace_by t) | None => "Unknown" end in
  let bodyweight :=
    match td_bodyweight p with Some t => strip t | None => "Unknown" end in
  let entries := dose_chart_entries (dosechart_rows p) in
  let dose_chart :=
    match entries with
    | [] => "No Dose Chart Available"
    | _ => String.concat NL entries
    end in
  let report_text :=
    match div_report_text p with
    | Some strings => String.concat EmptyString (stripped_strings strings)
    | None => "No Text Available"
    end in
  {| Title := title;
     Substance := substance;
     Author := author;
     Bodyweight := bodyweight;
     Dose_Chart := dose_chart;
     Report_Text := report_text;
     Link := href |}.

(** ** The script *)

Section Script.

(** The bytes of a CSV file, with [pd.read_csv] and [df.to_csv(index=False)]. *)
Variable csv : Type.
Variable read_csv : csv -> DataFrame.
Variable to_csv : DataFrame -> csv.

(** [list(set(xs))]: the elements of [xs] in the iteration order of the set. *)
Variable list_set : list string -> list string.

(** The answer of the browser to [driver.get(url)]. *)
Variable driver_get : string -> GetResult.

(** The two files of the script ([None]: the path does not exist) and
    what the run has done so far, oldest event first. *)
Record World := mkWorld {
  links_file : option string;
  reports_file : option csv;
  trace : list Event
}.

Definition log (w : World) (es : list Event) : World :=
  {| links_file := links_file w;
     reports_file := reports_file w;
     trace := trace w ++ es |}.

(** [df.to_csv(REPORTS_FILE, index=False)] *)
Definition write_reports (w : World) (c : csv) : World :=
  {| links_file := links_file w;
     reports_file := Some c;
     trace := trace w ++ [EvWrite REPORTS_FILE] |}.

(** [with open(LINKS_FILE, "w") as f: f.write(text)] *)
Definition write_links (w : World) (text : string) : World :=
  {| links_file := Some text;
     reports_file := reports_file w;
     trace := trace w ++ [EvWrite LINKS_FILE] |}.

(** The rows of the Report Table on disk. *)
Definition table (w : World) : DataFrame :=
  match reports_file w with
  | Some c => read_csv c
  | None => []
  end.

(** *** get_all_report_links (lines 19 to 43) *)

Definition get_all_report_links (start_url : string) (w : World)
  : World * Result (list string) :=
  match links_file w with
  | Some content =>
      (log w [EvPrint MsgLoadingLinks], Ok (list_set (splitlines content)))
  | None =>
      match driver_get start_url with
      | TimedOut => (log w [EvGet start_url], Raised TimeoutException)
      | Loaded p =>
          let w := log w [EvGet start_url;
                          EvPrint (MsgScrapingIndex (current_url p))] in
          let report_links := [] ++ filter (prefix SITE) (anchors p) in
          let w := log w [EvPrint MsgFinishedLinks] in
          let report_links := list_set report_links in
          let w := write_links w (String.concat NL report_links) in
          (w, Ok report_links)
      end
  end.

(** *** scrape_erowid_reports (lines 45 to 149) *)

(** The local variables of the function that the loop updates. *)
Record Locals := mkLocals {
  all_data : list Report;
  processed_count : nat;
  scraped_links : list string   (* a set: only [in] and [add] are used *)
}.

(** Lines 51 to 55. *)
Definition load_scraped_links (w : World) : list string :=
  match reports_file w with
  | Some c => dropna (Link_column (read_csv c))
  | None => []
  end.

(** Lines 58 and 59. *)
Definition pending (report_links scraped : list string) : list string :=
  filter (fun link => negb (mem link scraped)) (list_set report_links).

(** Lines 135 to 143: merge the batch into the file. *)
Definition save_batch (w : World) (data : list Report) : World :=
  let df_batch := DataFrame_of data in
  match reports_file w with
  | Some c =>
      let existing_df := read_csv c in
      let combined_df := existing_df ++ df_batch in
      write_reports w (to_csv (drop_duplicates combined_df))
  | None =>
      write_reports w (to_csv (drop_duplicates df_batch))
  end.

(** The test of line 134, [n] being [len(report_links)]. *)
Definition flush_due (n i : nat) : bool :=
  Nat.eqb ((i + 1) mod BATCH_SIZE) 0 || Nat.eqb (i + 1) n.

(** Lines 118 to 145: the record is stored, and saved when a batch is due. *)
Definition store (n i : nat) (r : Report) (w : World) (v : Locals)
  : World * Locals * Ctl :=
  let data := all_data v ++ [r] in
  let count := processed_count v + 1 in
  let scraped := Link r :: scraped_links v in   (* the Link of [r] is [href] *)
  if flush_due n i then
    (log (save_batch w data) [EvPrint (MsgSaved (i + 1))],
     {| all_data := []; processed_count := count; scraped_links := scraped |},
     Next)
  else
    (w,
     {| all_data := data; processed_count := count; scraped_links := scraped |},
     Next).

(** Lines 79 to 145: the page is loaded. The extraction of lines 93 to 128
    calls nothing that raises on a parsed page, so the [except] branch of
    line 129 is never taken. *)
Definition on_page (n i : nat) (href : string) (p : Page) (w : World) (v : Locals)
  : World * Locals * Ctl :=
  if contains BAN_SIGNATURE (page_source p) then
    match h2 p with
    | None => (w, v, Raise AttributeError)   (* soup.find("h2").text *)
    | Some text =>
        let ip_address := strip (last_field text) in
        (log w [EvPrint (MsgBanned ip_address);
                EvPrint (MsgStopped (processed_count v));
                EvQuit],
         v, Break)
    end
  else if contains "reset.me" (current_url p)
          || contains "wordpress.com" (current_url p) then
    (log w [EvPrint (MsgRedirected (current_url p))], v, Next)
  else
    store n i (extract p href) w v.

(** One turn of the loop of line 64 for the link [href] at index [i]. *)
Definition body (n i : nat) (href : string) (w : World) (v : Locals)
  : World * Locals * Ctl :=
  if mem href (scraped_links v) then (w, v, Next)
  else if negb (prefix SITE href) then
    (log w [EvPrint (MsgSkipInvalid href)], v, Next)
  else
    match driver_get href with
    | TimedOut => (log w [EvGet href; EvPrint (MsgTimeout href)], v, Next)
    | Loaded p => on_page n i href p (log w [EvGet href]) v
    end.

(** [for i, href in enumerate(report_links)], from index [i] on. *)
Fixpoint loop (n i : nat) (links : list string) (w : World) (v : Locals)
  : World * Locals * Ctl :=
  match links with
  | [] => (w, v, Next)
  | href :: rest =>
      match body n i href w v with
      | (w', v', Next) => loop n (S i) rest w' v'
      | stopped => stopped
      end
  end.

(** The function returns its locals too, and how the loop ended: [Next]
    when it ran to the last link, [Break] on a ban, [Raise] when an
    exception leaves the function (lines 147 to 149 are then skipped). *)
Definition scrape_erowid_reports (report_links : list string) (w : World)
  : World * Locals * Ctl :=
  let scraped := load_scraped_links w in
  let report_links := pending report_links scraped in
  let w := log w [EvPrint (MsgRemaining (List.length report_links))] in
  let v := {| all_data := []; processed_count := 0; scraped_links := scraped |} in
  match loop (List.length report_links) 0 report_links w v with
  | (w', v', Raise e) => (w', v', Raise e)
  | (w', v', c) =>
      (log w' [EvPrint (MsgFinished (processed_count v')); EvQuit], v', c)
  end.

(** *** remove_duplicates_from_csv (lines 151 to 159) *)

Definition remove_duplicates_from_csv (w : World) : World :=
  match reports_file w with
  | Some c =>
      let df := read_csv c in
      let before := List.length df in
      let df := drop_duplicates df in
      let w := write_reports w (to_csv df) in
      let after := List.length df in
      log w [EvPrint (MsgRemoved (before - after))]
  | None => w
  end.

(** *** Main execution steps (lines 162 to 164) *)

Definition main (w : World) : World * Result unit :=
  match get_all_report_links BASE_URL w with
  | (w1, Raised e) => (w1, Raised e)
  | (w1, Ok report_links) =>
      match scrape_erowid_reports report_links w1 with
      | (w2, _, Raise e) => (w2, Raised e)
      | (w2, _, _) => (remove_duplicates_from_csv w2, Ok tt)
      end
  end.

(** *** Reading a trace *)

(** The links the browser was sent to, in order. *)
Fixpoint fetched (tr : list Event) : list string :=
  match tr with
  | [] => []
  | EvGet url :: rest => url :: fetched rest
  | _ :: rest => fetched rest
  end.

(** The batch numbers of the "Saved batch" lines, in order: one per flush. *)
Fixpoint saved_batches (tr : list Event) : list nat :=
  match tr with
  | [] => []
  | EvPrint (MsgSaved k) :: rest => k :: saved_batches rest
  | _ :: rest => saved_batches rest
  end.

(** The paths written, in order. *)
Fixpoint written (tr : list Event) : list string :=
  match tr with
  | [] => []
  | EvWrite path :: rest => path :: written rest
  | _ :: rest => written rest
  end.

(** The number of [driver.quit()] calls. *)
Fixpoint quits (tr : list Event) : nat :=
  match tr with
  | [] => 0
  | EvQuit :: rest => S (quits rest)
  | _ :: rest => quits rest
  end.

(** A link the loop turns into a record: well-formed, loaded, neither the
    ban page nor an off-site redirect. *)
Definition extractable (href : string) : bool :=
  prefix SITE href &&
  match driver_get href with
  | TimedOut => false
  | Loaded p =>
      negb (contains BAN_SIGNATURE (page_source p)) &&
      negb (contains "reset.me" (current_url p)
            || contains "wordpress.com" (current_url p))
  end.

(** The ways a turn can end, as the cases of one disjunction. *)
Inductive Turn (n i : nat) (href : string) (w : World) (v : Locals)
  : World * Locals * Ctl -> Prop :=
| TurnSeen :
    In href (scraped_links v) ->
    Turn n i href w v (w, v, Next)
| TurnInvalid :
    prefix SITE href = false ->
    Turn n i href w v (log w [EvPrint (MsgSkipInvalid href)], v, Next)
| TurnTimeout :
    prefix SITE href = true ->
    driver_get href = TimedOut ->
    Turn n i href w v (log w [EvGet href; EvPrint (MsgTimeout href)], v, Next)
| TurnBan p text :
    prefix SITE href = true ->
    driver_get href = Loaded p ->
    Turn n i href w v
         (log (log w [EvGet href])
              [EvPrint (MsgBanned (strip (last_field text)));
               EvPrint (MsgStopped (processed_count v));
               EvQuit],
          v, Break)
| TurnCrash p :
    prefix SITE href = true ->
    driver_get href = Loaded p ->
    Turn n i href w v (log w [EvGet href], v, Raise AttributeError)
| TurnRedirect p :
    prefix SITE href = true ->
    driver_get href = Loaded p ->
    Turn n i href w v
         (log (log w [EvGet href]) [EvPrint (MsgRedirected (current_url p))],
          v, Next)
| TurnKept p :
    prefix SITE href = true ->
    driver_get href = Loaded p ->
    ~ In href (scraped_links v) ->
    Turn n i href w v
         (log w [EvGet href],
          {| all_data := all_data v ++ [extract p href];
             processed_count := processed_count v + 1;
             scraped_links := href :: scraped_links v |},
          Next)
| TurnSaved p :
    prefix SITE href = true ->
    driver_get href = Loaded p ->
    ~ In href (scraped_links v) ->
    Turn n i href w v
         (log (save_batch (log w [EvGet href])
                          (all_data v ++ [extract p href]))
              [EvPrint (MsgSaved (i + 1))],
          {| all_data := [];
             processed_count := processed_count v + 1;
             scraped_links := href :: scraped_links v |},
          Next).

(** The positions, counted from 1, after which line 134 asks for a save. *)
Definition at_boundary (n k : nat) : bool :=
  Nat.eqb (k mod BATCH_SIZE) 0 || Nat.eqb k n.

(** No record waiting in [all_data] is in the table on disk, and the links
    of the table and of the waiting records are all marked as scraped. *)
Definition buffer_apart (w : World) (v : Locals) : Prop :=
  (forall r, In r (all_data v) ->
             ~ In (Some (Link r)) (Link_column (table w))) /\
  (forall l, In (Some l) (Link_column (table w)) -> In l (scraped_links v)) /\
  (forall r, In r (all_data v) -> In (Link r) (scraped_links v)).

(** Every row on disk carries a link that was there at the start ([old])
    or whose page loaded; the page of every waiting record loaded. *)
Definition rows_accounted (old : list Cell) (w : World) (v : Locals) : Prop :=
  (forall k, In k (Link_column (table w)) ->
             In k old \/ exists l p, k = Some l /\ driver_get l = Loaded p) /\
  (forall r, In r (all_data v) -> exists p, driver_get (Link r) = Loaded p).



End Script.

Arguments mkWorld {csv} links_file reports_file trace.

(** ** Concrete surroundings, to run the script on *)

(** A file format that stores the table as it is. *)
Definition frame_read (c : DataFrame) : DataFrame := c.
Definition frame_write (df : DataFrame) : DataFrame := df.

(** Two iteration orders a set of strings may have: the order of first
    insertion, and its reverse. *)
Fixpoint first_seen_from (seen xs : list string) : list string :=
  match xs with
  | [] => []
  | x :: rest =>
      if mem x seen then first_seen_from seen rest
      else x :: first_seen_from (x :: seen) rest
  end.

Definition first_seen (xs : list string) : list string := first_seen_from [] xs.

Definition last_seen (xs : list string) : list string := rev (first_seen xs).

(** The address of report number [k]. *)
Definition report_link (k : nat) : string :=
  (SITE ++ "/experiences/exp.php?ID="
   ++ NilEmpty.string_of_uint (Nat.to_uint k))%string.

Definition report_links_upto (n : nat) : list string :=
  map report_link (seq 1 n).

(** A report page with a title and a text, and nothing else. *)
Definition plain_page (url : string) : Page :=
  {| page_source := "<div class='title'>A Night Out</div>";
     current_url := url;
     anchors := [];
     h2 := None;
     div_title := Some " A Night Out ";
     div_substance := None;
     div_author := None;
     td_bodyweight := None;
     dosechart_rows := [];
     div_report_text := Some ["It was "; " late. "] |}.

(** The page the site answers with once the address is blocked. *)
Definition ban_page (url : string) : Page :=
  {| page_source := ("<h2>" ++ BAN_SIGNATURE ++ ": 10.0.0.1</h2>")%string;
     current_url := url;
     anchors := [];
     h2 := Some (BAN_SIGNATURE ++ ": 10.0.0.1")%string;
     div_title := None;
     div_substance := None;
     div_author := None;
     td_bodyweight := None;
     dosechart_rows := [];
     div_report_text := None |}.

(** The same signature in a page without any [h2] element. *)
Definition ban_page_no_h2 (url : string) : Page :=
  {| page_source := ("<p>" ++ BAN_SIGNATURE ++ "</p>")%string;
     current_url := url;
     anchors := [];
     h2 := None;
     div_title := None;
     div_substance := None;
     div_author := None;
     td_bodyweight := None;
     dosechart_rows := [];
     div_report_text := None |}.

(** Every page loads. *)
Definition web_ok (url : string) : GetResult := Loaded (plain_page url).

(** Every page loads but the one of [slow], which times out. *)
Definition web_slow (slow : string) (url : string) : GetResult :=
  if url =? slow then TimedOut else Loaded (plain_page url).

(** Every page loads; the one of [blocked] is the ban page. *)
Definition web_ban (blocked : string) (url : string) : GetResult :=
  if url =? blocked then Loaded (ban_page url) else Loaded (plain_page url).

Definition web_ban_no_h2 (blocked : string) (url : string) : GetResult :=
  if url =? blocked then Loaded (ban_page_no_h2 url) else Loaded (plain_page url).

(** A machine with neither file. *)
Definition fresh : World DataFrame :=
  {| links_file := None; reports_file := None; trace := [] |}.

(** A machine whose table holds the reports 1 and 2, the second one twice. *)
Definition two_reports : DataFrame :=
  [row_of_report (extract (plain_page (report_link 1)) (report_link 1));
   row_of_report (extract (plain_page (report_link 2)) (report_link 2));
   row_of_report (extract (plain_page (report_link 2)) (report_link 2))].

Definition stocked : World DataFrame :=
  {| links_file :=
       Some (report_link 1 ++ NL ++ report_link 2 ++ NL ++ report_link 1)%string;
     reports_file := Some two_reports;
     trace := [] |}.

(** A machine that has the list of the reports 1 to 3 and no table yet. *)
Definition listed : World DataFrame :=
  {| links_file :=
       Some (report_link 1 ++ NL ++ report_link 2 ++ NL ++ report_link 3)%string;
     reports_file := None;
     trace := [] |}.

(** ** More concrete surroundings *)

(** A string without any line boundary of [splitlines]. *)
Fixpoint one_line (s : string) : bool :=
  match s with
  | EmptyString => true
  | String c t => negb (is_linebreak c) && one_line t
  end.

(** An index page with four report anchors, one of them twice and one
    on another host. *)
Definition index_page : Page :=
  {| page_source := "<a href='exp.php?ID=1'>1</a>";
     current_url := BASE_URL;
     anchors := [report_link 1; report_link 2; report_link 1;
                 "http://mirror.example/exp.php?ID=7"];
     h2 := None;
     div_title := None;
     div_substance := None;
     div_author := None;
     td_bodyweight := None;
     dosechart_rows := [];
     div_report_text := None |}.

(** The index page at [BASE_URL], report pages elsewhere. *)
Definition web_index (url : string) : GetResult :=
  if url =? BASE_URL then Loaded index_page else Loaded (plain_page url).

(** A site on which nothing answers in time. *)
Definition web_down (url : string) : GetResult := TimedOut.

(** A report page with a dose chart of three rows, the second of which
    has four cells only. *)
Definition dosed_page (url : string) : Page :=
  {| page_source := "<table class='dosechart'>";
     current_url := url;
     anchors := [];
     h2 := None;
     div_title := Some "Two Doses";
     div_substance := Some "Caffeine";
     div_author := Some "by Toby";
     td_bodyweight := Some " 70 kg ";
     dosechart_rows :=
       [["T+ 0:00"; "100 mg"; "oral"; "Caffeine"; "(pill)"];
        ["T+ 1:00"; "oral"; "Caffeine"; "(pill)"];
        [" T+ 2:00 "; "50 mg"; "oral"; "Caffeine"; "(tea)"]];
     div_report_text := Some ["  "; "Awake."] |}.

(** A machine whose table holds the reports 1 and 2, once each. *)
Definition tidy : World DataFrame :=
  {| links_file := None;
     reports_file :=
       Some [row_of_report (extract (plain_page (report_link 1)) (report_link 1));
             row_of_report (extract (plain_page (report_link 2)) (report_link 2))];
     trace := [] |}.

(** ** A reader and a writer that re-type columns, as pandas does *)

(** The cells of a CSV file as texts, row by row, the header line left
    out. The comma and quote layer of the format is not modelled: a file
    is taken as the grid of its cell texts. *)
Definition Grid := list (list string).

Module Pandas.

Definition is_digit (c : ascii) : bool :=
  let n := nat_of_ascii c in ((48 <=? n) && (n <=? 57))%nat.

Fixpoint all_digits (s : string) : bool :=
  match s with
  | EmptyString => true
  | String c t => is_digit c && all_digits t
  end.

Fixpoint drop_zeros (s : string) : string :=
  match s with
  | String c t => if Ascii.eqb c "0"%char then drop_zeros t else s
  | EmptyString => EmptyString
  end.

(** The digits of an integer literal, its sign set apart. *)
Definition magnitude (s : string) : string :=
  match s with
  | String c t =>
      if Ascii.eqb c "-"%char || Ascii.eqb c "+"%char then t else s
  | EmptyString => EmptyString
  end.

(** An integer literal that fits a 64-bit integer for sure: an optional
    sign and one to eighteen digits. *)
Definition is_int (s : string) : bool :=
  let digits := magnitude s in
  all_digits digits
  && (1 <=? String.length digits)%nat && (String.length digits <=? 18)%nat.

(** The text [to_csv] writes for the integer that [read_csv] parsed from
    the literal: no plus sign, no leading zero, no minus sign on zero. *)
Definition canon_int (s : string) : string :=
  match drop_zeros (magnitude s) with
  | EmptyString => "0"
  | digits =>
      match s with
      | String c _ =>
          if Ascii.eqb c "-"%char then String "-"%char digits else digits
      | EmptyString => digits
      end
  end.

(** The texts that [read_csv] takes for a missing value by default. *)
Definition NA_VALUES : list string :=
  [EmptyString; "#N/A"; "#N/A N/A"; "#NA"; "-1.#IND"; "-1.#QNAN"; "-NaN";
   "-nan"; "1.#IND"; "1.#QNAN"; "<NA>"; "N/A"; "NA"; "NULL"; "NaN"; "None";
   "n/a"; "nan"; "null"].

Definition is_na (s : string) : bool := mem s NA_VALUES.

(** The cell [j] of a row of the file; a short row is padded. *)
Definition text_at (j : nat) (cells : list string) : string :=
  nth j cells EmptyString.

(** Column [j] holds integer literals only: pandas reads it as integers.
    (Columns of decimal fractions, or of integers with missing values,
    are re-typed by pandas too; this model leaves them as texts.) *)
Definition int_column (j : nat) (g : Grid) : bool :=
  forallb (fun cells => is_int (text_at j cells)) g.

Definition read_cell (g : Grid) (j : nat) (cells : list string) : Cell :=
  let t := text_at j cells in
  if int_column j g then Some (canon_int t)
  else if is_na t then None
  else Some t.

(** [pd.read_csv]: every column is typed from all of its cells. *)
Definition read_csv (g : Grid) : DataFrame :=
  map (fun cells =>
         {| col_Title := read_cell g 0 cells;
            col_Substance := read_cell g 1 cells;
            col_Author := read_cell g 2 cells;
            col_Bodyweight := read_cell g 3 cells;
            col_Dose_Chart := read_cell g 4 cells;
            col_Report_Text := read_cell g 5 cells;
            col_Link := read_cell g 6 cells |})
      g.

Definition write_cell (c : Cell) : string :=
  match c with
  | Some t => t
  | None => EmptyString
  end.

(** [df.to_csv(index=False)]: a missing value is written as nothing. *)
Definition to_csv (df : DataFrame) : Grid :=
  map (fun r =>
         [write_cell (col_Title r); write_cell (col_Substance r);
          write_cell (col_Author r); write_cell (col_Bodyweight r);
          write_cell (col_Dose_Chart r); write_cell (col_Report_Text r);
          write_cell (col_Link r)])
      df.

End Pandas.

(** A table file with two rows for the same link, whose Bodyweight cells
    are 007 and abc. *)
Definition weighed : World Grid :=
  {| links_file := None;
     reports_file :=
       Some [["A Night Out"; "Caffeine"; "Toby"; "007"; "none"; "Late."; "L1"];
             ["A Night Out"; "Caffeine"; "Toby"; "abc"; "none"; "Late."; "L1"]];
     trace := [] |}.

(** A table file with the same link twice and no cell that is a number. *)
Definition worded : World Grid :=
  {| links_file := None;
     reports_file :=
       Some [["A Night Out"; "Caffeine"; "Toby"; "70 kg"; "none"; "Late."; "L1"];
             ["A Day In"; "Tea"; "Abby"; "60 kg"; "none"; "Early."; "L2"];
             ["A Night Out"; "Caffeine"; "Toby"; "70 kg"; "none"; "Late."; "L1"]];
     trace := [] |}.

(** * Properties *)

(** ** Membership tests and traces *)

Lemma mem_In (x : string) (s : list string) : mem x s = true <-> In x s.
Proof.
  unfold mem. rewrite existsb_exists. split.
  - intros [y [Hy E]]. apply String.eqb_eq in E. now subst.
  - intros H. exists x. split; [assumption | apply String.eqb_refl].
Qed.

Lemma mem_false (x : string) (s : list string) : mem x s = false <-> ~ In x s.
Proof.
  rewrite <- mem_In. destruct (mem x s); split; congruence.
Qed.

Lemma Cell_eqb_eq (a b : Cell) : Cell_eqb a b = true <-> a = b.
Proof.
  destruct a as [x|], b as [y|]; simpl; try (split; congruence).
  rewrite String.eqb_eq. split; congruence.
Qed.

Lemma mem_cell_In (k : Cell) (seen : list Cell) :
  mem_cell k seen = true <-> In k seen.
Proof.
  unfold mem_cell. rewrite existsb_exists. split.
  - intros [y [Hy E]]. apply Cell_eqb_eq in E. now subst.
  - intros H. exists k. split; [assumption | now apply Cell_eqb_eq].
Qed.

Lemma mem_cell_false (k : Cell) (seen : list Cell) :
  mem_cell k seen = false <-> ~ In k seen.
Proof.
  rewrite <- mem_cell_In. destruct (mem_cell k seen); split; congruence.
Qed.

Lemma dropna_In (x : string) (col : list Cell) :
  In x (dropna col) <-> In (Some x) col.
Proof.
  induction col as [|[y|] col IH]; simpl.
  - tauto.
  - rewrite IH. split; intros [E|H]; auto; left; congruence.
  - rewrite IH. split; [auto | intros [E|H]; [discriminate | assumption]].
Qed.

Lemma fetched_app (a b : list Event) : fetched (a ++ b) = fetched a ++ fetched b.
Proof.
  induction a as [|[u| |p|m] a IH]; simpl; congruence.
Qed.

Lemma saved_batches_app (a b : list Event) :
  saved_batches (a ++ b) = saved_batches a ++ saved_batches b.
Proof.
  induction a as [|[u| |p|[]] a IH]; simpl; congruence.
Qed.

Lemma written_app (a b : list Event) : written (a ++ b) = written a ++ written b.
Proof.
  induction a as [|[u| |p|m] a IH]; simpl; congruence.
Qed.

Lemma quits_app (a b : list Event) : quits (a ++ b) = quits a + quits b.
Proof.
  induction a as [|[u| |p|m] a IH]; simpl; congruence.
Qed.

(** ** drop_duplicates *)

Lemma drop_duplicates_from_keys (df : DataFrame) :
  forall seen,
    NoDup (Link_column (drop_duplicates_from seen df)) /\
    (forall k, In k (Link_column (drop_duplicates_from seen df)) -> ~ In k seen).
Proof.
  induction df as [|r rest IH]; intros seen; simpl.
  - split; [constructor | intros k []].
  - destruct (mem_cell (col_Link r) seen) eqn:E.
    + apply IH.
    + apply mem_cell_false in E.
      destruct (IH (col_Link r :: seen)) as [Hnd Hout]. simpl. split.
      * constructor; [|assumption].
        intros Hin. apply (Hout _ Hin). now left.
      * intros k [<-|Hin]; [assumption|].
        intros Hs. apply (Hout _ Hin). now right.
Qed.

Lemma drop_duplicates_from_incl (df : DataFrame) :
  forall seen r, In r (drop_duplicates_from seen df) -> In r df.
Proof.
  induction df as [|r0 rest IH]; intros seen r; simpl; [tauto|].
  destruct (mem_cell (col_Link r0) seen).
  - intros H. right. eapply IH, H.
  - intros [<-|H]; [now left | right; eapply IH, H].
Qed.

Lemma drop_duplicates_from_idem (df : DataFrame) :
  forall seen,
    drop_duplicates_from seen (drop_duplicates_from seen df)
    = drop_duplicates_from seen df.
Proof.
  induction df as [|r rest IH]; intros seen; simpl; [reflexivity|].
  destruct (mem_cell (col_Link r) seen) eqn:E.
  - apply IH.
  - simpl. rewrite E. f_equal. apply IH.
Qed.

Lemma drop_duplicates_NoDup (df : DataFrame) :
  NoDup (Link_column (drop_duplicates df)).
Proof. apply drop_duplicates_from_keys. Qed.

Lemma drop_duplicates_idem (df : DataFrame) :
  drop_duplicates (drop_duplicates df) = drop_duplicates df.
Proof. apply drop_duplicates_from_idem. Qed.

Lemma drop_duplicates_incl (df : DataFrame) (r : Row) :
  In r (drop_duplicates df) -> In r df.
Proof. apply drop_duplicates_from_incl. Qed.

Lemma drop_duplicates_link (df : DataFrame) (k : Cell) :
  In k (Link_column (drop_duplicates df)) -> In k (Link_column df).
Proof.
  unfold Link_column. rewrite !in_map_iff.
  intros [r [E H]]. exists r. split; [assumption|].
  now apply drop_duplicates_incl.
Qed.

(** ** The cleanup pass *)

Section Cleanup.

Variable csv : Type.
Variable read_csv : csv -> DataFrame.
Variable to_csv : DataFrame -> csv.

(** Reading back a file pandas wrote gives the table that was written. *)
Hypothesis read_to_csv : forall df, read_csv (to_csv df) = df.

Lemma cleanup_absent (w : World csv) :
  reports_file w = None -> remove_duplicates_from_csv read_csv to_csv w = w.
Proof.
  intros E. unfold remove_duplicates_from_csv. now rewrite E.
Qed.

Lemma cleanup_present (w : World csv) (c : csv) :
  reports_file w = Some c ->
  reports_file (remove_duplicates_from_csv read_csv to_csv w)
  = Some (to_csv (drop_duplicates (read_csv c))) /\
  links_file (remove_duplicates_from_csv read_csv to_csv w) = links_file w.
Proof.
  intros E. unfold remove_duplicates_from_csv. rewrite E. split; reflexivity.
Qed.

Lemma cleanup_table (w : World csv) :
  table read_csv (remove_duplicates_from_csv read_csv to_csv w)
  = drop_duplicates (table read_csv w).
Proof.
  unfold table at 1.
  destruct (reports_file w) as [c|] eqn:E.
  - destruct (cleanup_present w E) as [-> _].
    unfold table. rewrite E. apply read_to_csv.
  - rewrite (cleanup_absent w E). unfold table. rewrite E. reflexivity.
Qed.

(** C1: after the cleanup pass, no two rows of the Report Table carry the
    same value in the Link column. *)
Theorem cleanup_links_unique (w : World csv) :
  NoDup (Link_column
           (table read_csv (remove_duplicates_from_csv read_csv to_csv w))).
Proof.
  rewrite cleanup_table. apply drop_duplicates_NoDup.
Qed.

End Cleanup.

(** C2, amended: a second cleanup pass right after the first leaves the
    Report Table file with the very contents the first pass wrote,
    provided that reading back the file the first pass wrote gives the
    table that pass wrote. *)
Theorem cleanup_idempotent_when_read_back
        (csv : Type) (read_csv : csv -> DataFrame) (to_csv : DataFrame -> csv)
        (w : World csv) :
  (forall c, reports_file w = Some c ->
             read_csv (to_csv (drop_duplicates (read_csv c)))
             = drop_duplicates (read_csv c)) ->
  reports_file (remove_duplicates_from_csv read_csv to_csv
                  (remove_duplicates_from_csv read_csv to_csv w))
  = reports_file (remove_duplicates_from_csv read_csv to_csv w) /\
  links_file (remove_duplicates_from_csv read_csv to_csv
                (remove_duplicates_from_csv read_csv to_csv w))
  = links_file (remove_duplicates_from_csv read_csv to_csv w).
Proof.
  intros Hback.
  destruct (reports_file w) as [c|] eqn:E.
  - destruct (cleanup_present read_csv to_csv w E) as [E1 L1].
    destruct (cleanup_present read_csv to_csv _ E1) as [E2 L2].
    rewrite E2, L2, E1, (Hback c eq_refl), drop_duplicates_idem.
    split; reflexivity.
  - rewrite !(cleanup_absent read_csv to_csv w E). split; reflexivity.
Qed.

(** ** Field extraction *)

Section Extraction.

Variable csv : Type.
Variable read_csv : csv -> DataFrame.
Variable to_csv : DataFrame -> csv.

(** C7: a field whose selector finds nothing gets its placeholder, a
    missing author gives "Unknown", and the page still becomes a record
    that the loop stores. *)
Theorem missing_fields_get_placeholders (p : Page) (href : string) :
  (div_title p = None -> Title (extract p href) = "Unknown Title") /\
  (div_substance p = None -> Substance (extract p href) = "Unknown Substance") /\
  (div_author p = None -> Author (extract p href) = "Unknown") /\
  (td_bodyweight p = None -> Bodyweight (extract p href) = "Unknown") /\
  (dosechart_rows p = [] -> Dose_Chart (extract p href) = "No Dose Chart Available") /\
  (div_report_text p = None -> Report_Text (extract p href) = "No Text Available") /\
  Link (extract p href) = href /\
  (forall n i (w : World csv) v,
      contains BAN_SIGNATURE (page_source p) = false ->
      contains "reset.me" (current_url p)
      || contains "wordpress.com" (current_url p) = false ->
      on_page read_csv to_csv n i href p w v
      = store read_csv to_csv n i (extract p href) w v).
Proof.
  unfold extract; simpl.
  repeat split; try (intros ->; reflexivity).
  intros n i w v Hban Hred. unfold on_page. rewrite Hban, Hred. reflexivity.
Qed.

End Extraction.

(** ** The link collector and the fetch run *)

Section Run.

Variable csv : Type.
Variable read_csv : csv -> DataFrame.
Variable to_csv : DataFrame -> csv.
Variable list_set : list string -> list string.
Variable driver_get : string -> GetResult.

(** Reading back a file pandas wrote gives the table that was written. *)
Hypothesis read_to_csv : forall df, read_csv (to_csv df) = df.

(** A set holds every element once, and nothing else. *)
Hypothesis list_set_NoDup : forall xs, NoDup (list_set xs).
Hypothesis list_set_In : forall xs x, In x (list_set xs) <-> In x xs.

Lemma load_scraped_links_In (w : World csv) (l : string) :
  In l (load_scraped_links read_csv w)
  <-> In (Some l) (Link_column (table read_csv w)).
Proof.
  unfold load_scraped_links, table.
  destruct (reports_file w); [apply dropna_In | simpl; tauto].
Qed.

Lemma pending_In (links scraped : list string) (l : string) :
  In l (pending list_set links scraped) <-> In l links /\ ~ In l scraped.
Proof.
  unfold pending. rewrite filter_In, list_set_In, negb_true_iff, mem_false.
  tauto.
Qed.

Lemma pending_NoDup (links scraped : list string) :
  NoDup (pending list_set links scraped).
Proof.
  unfold pending. apply NoDup_filter, list_set_NoDup.
Qed.

Lemma pending_nil (links scraped : list string) :
  (forall l, In l links -> In l scraped) ->
  pending list_set links scraped = [].
Proof.
  intros H. destruct (pending list_set links scraped) as [|x xs] eqn:E.
  - reflexivity.
  - assert (Hx : In x (pending list_set links scraped))
      by (rewrite E; now left).
    apply pending_In in Hx. destruct Hx as [Hin Hout].
    exfalso. apply Hout, H, Hin.
Qed.

(** C4: when every link of the Link Set is already in the Link column of
    the Report Table, the fetch run visits no link, stores no record and
    leaves both files as they were. *)
Theorem nothing_left_to_scrape (links : list string) (w : World csv) :
  (forall l, In l links -> In (Some l) (Link_column (table read_csv w))) ->
  exists w' v',
    scrape_erowid_reports read_csv to_csv list_set driver_get links w
    = (w', v', Next) /\
    pending list_set links (load_scraped_links read_csv w) = [] /\
    fetched (trace w') = fetched (trace w) /\
    written (trace w') = written (trace w) /\
    processed_count v' = 0 /\
    reports_file w' = reports_file w /\
    links_file w' = links_file w.
Proof.
  intros H.
  assert (P : pending list_set links (load_scraped_links read_csv w) = []).
  { apply pending_nil. intros l Hl. apply load_scraped_links_In, H, Hl. }
  unfold scrape_erowid_reports. rewrite P. simpl.
  eexists; eexists. split; [reflexivity|]. simpl.
  rewrite !fetched_app, !written_app. simpl. rewrite !app_nil_r.
  repeat split; reflexivity.
Qed.

(** *** One turn of the loop, case by case *)

Lemma table_log (w : World csv) (es : list Event) :
  table read_csv (log w es) = table read_csv w.
Proof. reflexivity. Qed.

Lemma table_save_batch (w : World csv) (data : list Report) :
  table read_csv (save_batch read_csv to_csv w data)
  = drop_duplicates (table read_csv w ++ DataFrame_of data).
Proof.
  unfold save_batch, table. destruct (reports_file w); simpl; apply read_to_csv.
Qed.

Lemma Link_column_of (data : list Report) :
  Link_column (DataFrame_of data) = map (fun r => Some (Link r)) data.
Proof.
  unfold Link_column, DataFrame_of. rewrite map_map. reflexivity.
Qed.

Lemma saved_links (w : World csv) (data : list Report) (k : Cell) :
  In k (Link_column (table read_csv (save_batch read_csv to_csv w data))) ->
  In k (Link_column (table read_csv w))
  \/ exists r, In r data /\ k = Some (Link r).
Proof.
  rewrite table_save_batch. intros H. apply drop_duplicates_link in H.
  unfold Link_column in H. rewrite map_app in H. apply in_app_or in H.
  destruct H as [H|H]; [now left | right].
  fold (Link_column (DataFrame_of data)) in H. rewrite Link_column_of in H.
  apply in_map_iff in H. destruct H as [r [E Hr]]. exists r. auto.
Qed.

Lemma body_seen (n i : nat) (href : string) (w : World csv) (v : Locals) :
  mem href (scraped_links v) = true ->
  body read_csv to_csv driver_get n i href w v = (w, v, Next).
Proof. intros E. unfold body. now rewrite E. Qed.

Lemma body_invalid (n i : nat) (href : string) (w : World csv) (v : Locals) :
  mem href (scraped_links v) = false ->
  prefix SITE href = false ->
  body read_csv to_csv driver_get n i href w v
  = (log w [EvPrint (MsgSkipInvalid href)], v, Next).
Proof. intros E1 E2. unfold body. now rewrite E1, E2. Qed.

Lemma body_timeout (n i : nat) (href : string) (w : World csv) (v : Locals) :
  mem href (scraped_links v) = false ->
  prefix SITE href = true ->
  driver_get href = TimedOut ->
  body read_csv to_csv driver_get n i href w v
  = (log w [EvGet href; EvPrint (MsgTimeout href)], v, Next).
Proof. intros E1 E2 E3. unfold body. now rewrite E1, E2, E3. Qed.

Lemma body_loaded (n i : nat) (href : string) (p : Page) (w : World csv) (v : Locals) :
  mem href (scraped_links v) = false ->
  prefix SITE href = true ->
  driver_get href = Loaded p ->
  body read_csv to_csv driver_get n i href w v
  = on_page read_csv to_csv n i href p (log w [EvGet href]) v.
Proof. intros E1 E2 E3. unfold body. now rewrite E1, E2, E3. Qed.

Lemma on_page_ban (n i : nat) (href : string) (p : Page) (text : string)
      (w : World csv) (v : Locals) :
  contains BAN_SIGNATURE (page_source p) = true ->
  h2 p = Some text ->
  on_page read_csv to_csv n i href p w v
  = (log w [EvPrint (MsgBanned (strip (last_field text)));
            EvPrint (MsgStopped (processed_count v));
            EvQuit],
     v, Break).
Proof. intros E1 E2. unfold on_page. now rewrite E1, E2. Qed.

Lemma on_page_ban_no_h2 (n i : nat) (href : string) (p : Page)
      (w : World csv) (v : Locals) :
  contains BAN_SIGNATURE (page_source p) = true ->
  h2 p = None ->
  on_page read_csv to_csv n i href p w v = (w, v, Raise AttributeError).
Proof. intros E1 E2. unfold on_page. now rewrite E1, E2. Qed.

Lemma on_page_redirect (n i : nat) (href : string) (p : Page)
      (w : World csv) (v : Locals) :
  contains BAN_SIGNATURE (page_source p) = false ->
  contains "reset.me" (current_url p)
  || contains "wordpress.com" (current_url p) = true ->
  on_page read_csv to_csv n i href p w v
  = (log w [EvPrint (MsgRedirected (current_url p))], v, Next).
Proof. intros E1 E2. unfold on_page. now rewrite E1, E2. Qed.

Lemma on_page_store (n i : nat) (href : string) (p : Page)
      (w : World csv) (v : Locals) :
  contains BAN_SIGNATURE (page_source p) = false ->
  contains "reset.me" (current_url p)
  || contains "wordpress.com" (current_url p) = false ->
  on_page read_csv to_csv n i href p w v
  = store read_csv to_csv n i (extract p href) w v.
Proof. intros E1 E2. unfold on_page. now rewrite E1, E2. Qed.

Lemma body_Turn (n i : nat) (href : string) (w : World csv) (v : Locals) :
  Turn read_csv to_csv driver_get n i href w v
       (body read_csv to_csv driver_get n i href w v).
Proof.
  destruct (mem href (scraped_links v)) eqn:Hseen.
  { rewrite body_seen by assumption. apply TurnSeen. now apply mem_In. }
  destruct (prefix SITE href) eqn:Hsite.
  2:{ rewrite body_invalid by assumption. now apply TurnInvalid. }
  destruct (driver_get href) as [p|] eqn:Hget.
  2:{ rewrite body_timeout by assumption. now apply TurnTimeout. }
  rewrite (body_loaded _ _ _ _ Hseen Hsite Hget).
  destruct (contains BAN_SIGNATURE (page_source p)) eqn:Hban.
  { destruct (h2 p) as [text|] eqn:Hh2.
    - rewrite (on_page_ban _ _ _ _ _ _ Hban Hh2). now apply TurnBan with (p := p).
    - rewrite (on_page_ban_no_h2 _ _ _ _ _ _ Hban Hh2). now apply TurnCrash with (p := p). }
  destruct (contains "reset.me" (current_url p)
            || contains "wordpress.com" (current_url p)) eqn:Hred.
  { rewrite on_page_redirect by assumption. now apply TurnRedirect. }
  rewrite on_page_store by assumption.
  apply mem_false in Hseen.
  unfold store. destruct (flush_due n i).
  - now apply TurnSaved.
  - now apply TurnKept.
Qed.

(** A property of the files and the locals that every turn keeps holds
    when the loop stops, however it stops. *)
Lemma loop_invariant (I : World csv -> Locals -> Prop) :
  (forall n i href w v w' v' c,
      I w v ->
      Turn read_csv to_csv driver_get n i href w v (w', v', c) ->
      I w' v') ->
  forall links n i w v w' v' c,
    I w v ->
    loop read_csv to_csv driver_get n i links w v = (w', v', c) ->
    I w' v'.
Proof.
  intros Hturn links.
  induction links as [|href rest IH]; intros n i w v w' v' c HI E; simpl in E.
  - inversion E; subst. assumption.
  - pose proof (body_Turn n i href w v) as HT.
    destruct (body read_csv to_csv driver_get n i href w v) as [[w1 v1] c1].
    pose proof (Hturn _ _ _ _ _ _ _ _ HI HT) as HI1.
    destruct c1.
    + eapply IH; eassumption.
    + inversion E; subst. assumption.
    + inversion E; subst. assumption.
Qed.

Lemma scrape_invariant (I : World csv -> Locals -> Prop) :
  (forall n i href w v w' v' c,
      I w v ->
      Turn read_csv to_csv driver_get n i href w v (w', v', c) ->
      I w' v') ->
  (forall w v es, I w v -> I (log w es) v) ->
  forall links w w' v' c,
    I w {| all_data := []; processed_count := 0;
           scraped_links := load_scraped_links read_csv w |} ->
    scrape_erowid_reports read_csv to_csv list_set driver_get links w
    = (w', v', c) ->
    I w' v'.
Proof.
  intros Hturn Hlog links w w' v' c H0 E.
  unfold scrape_erowid_reports in E.
  match type of E with
  | context [loop ?a ?b ?c ?n ?i ?l ?w0 ?v0] =>
      destruct (loop a b c n i l w0 v0) as [[w1 v1] c1] eqn:EL
  end.
  assert (H1 : I w1 v1).
  { eapply loop_invariant; [exact Hturn | | exact EL]. apply Hlog, H0. }
  destruct c1; inversion E; subst; auto.
Qed.

(** *** The records waiting in memory are not on disk *)

Lemma buffer_apart_turn n i href (w : World csv) v w' v' c :
  buffer_apart read_csv w v ->
  Turn read_csv to_csv driver_get n i href w v (w', v', c) ->
  buffer_apart read_csv w' v'.
Proof.
  intros HI HT. inversion HT; subst; try exact HI.
  - (* the record is kept in memory *)
    destruct HI as [Ha [Hb Hc]]. repeat split; simpl.
    + intros r Hr. apply in_app_or in Hr. destruct Hr as [Hr|[<-|[]]].
      * now apply Ha.
      * simpl. intros Hin. apply Hb in Hin. contradiction.
    + intros l Hl. right. now apply Hb.
    + intros r Hr. apply in_app_or in Hr. destruct Hr as [Hr|[<-|[]]].
      * right. now apply Hc.
      * now left.
  - (* the batch is saved *)
    destruct HI as [Ha [Hb Hc]]. repeat split; simpl; try tauto.
    intros l Hl. rewrite table_log in Hl. apply saved_links in Hl.
    destruct Hl as [Hl|[r [Hr E]]].
    + right. now apply Hb.
    + injection E as ->. apply in_app_or in Hr. destruct Hr as [Hr|[<-|[]]].
      * right. now apply Hc.
      * now left.
Qed.

Lemma buffer_apart_start (w : World csv) :
  buffer_apart read_csv w
    {| all_data := []; processed_count := 0;
       scraped_links := load_scraped_links read_csv w |}.
Proof.
  repeat split; simpl; try tauto.
  intros l Hl. now apply load_scraped_links_In.
Qed.

(** *** What is on disk was there before or was fetched *)

Lemma rows_accounted_turn old n i href (w : World csv) v w' v' c :
  rows_accounted read_csv driver_get old w v ->
  Turn read_csv to_csv driver_get n i href w v (w', v', c) ->
  rows_accounted read_csv driver_get old w' v'.
Proof.
  intros HI HT. inversion HT; subst; try exact HI.
  - destruct HI as [Ha Hb]. split; simpl.
    + exact Ha.
    + intros r Hr. apply in_app_or in Hr. destruct Hr as [Hr|[<-|[]]].
      * now apply Hb.
      * simpl. now exists p.
  - destruct HI as [Ha Hb]. split; simpl; try tauto.
    intros k Hk. rewrite table_log in Hk. apply saved_links in Hk.
    destruct Hk as [Hk|[r [Hr E]]].
    + now apply Ha.
    + right. subst k. apply in_app_or in Hr. destruct Hr as [Hr|[<-|[]]].
      * destruct (Hb r Hr) as [q Hq]. now exists (Link r), q.
      * now exists href, p.
Qed.

(** C6: a link whose fetch times out is logged and skipped, the loop goes
    on to the next link, the Report Table gets no row for it, and the
    next run finds it among its pending links again. *)
Theorem timed_out_link_stays_pending
        (links : list string) (w : World csv) (href : string) :
  driver_get href = TimedOut ->
  In href links ->
  ~ In (Some href) (Link_column (table read_csv w)) ->
  (forall n i w0 v0,
      mem href (scraped_links v0) = false ->
      prefix SITE href = true ->
      body read_csv to_csv driver_get n i href w0 v0
      = (log w0 [EvGet href; EvPrint (MsgTimeout href)], v0, Next)) /\
  let '(w', v', c) :=
    scrape_erowid_reports read_csv to_csv list_set driver_get links w in
  ~ In (Some href) (Link_column (table read_csv w')) /\
  In href (pending list_set links (load_scraped_links read_csv w')).
Proof.
  intros Hget Hin Hnew. split.
  { intros n i w0 v0 Hseen Hsite. now apply body_timeout. }
  destruct (scrape_erowid_reports read_csv to_csv list_set driver_get links w)
    as [[w' v'] c] eqn:E.
  assert (HI : rows_accounted read_csv driver_get
                 (Link_column (table read_csv w)) w' v').
  { apply (scrape_invariant
             (rows_accounted read_csv driver_get
                (Link_column (table read_csv w)))) in E.
    - exact E.
    - intros. eapply rows_accounted_turn; eassumption.
    - intros w0 v0 es H. exact H.
    - split; [intros k Hk; now left | intros r []]. }
  assert (Hout : ~ In (Some href) (Link_column (table read_csv w'))).
  { intros Hk. destruct HI as [Ha _]. destruct (Ha _ Hk) as [Hold|[l [p [El Hl]]]].
    - contradiction.
    - injection El as <-. congruence. }
  split; [exact Hout|].
  apply pending_In. split; [exact Hin|].
  intros Hs. apply load_scraped_links_In in Hs. contradiction.
Qed.


(** *** The order of the visits *)

Lemma trace_save_batch (w : World csv) (data : list Report) :
  trace (save_batch read_csv to_csv w data) = trace w ++ [EvWrite REPORTS_FILE].
Proof.
  unfold save_batch. destruct (reports_file w); reflexivity.
Qed.

Lemma turn_fetch n i href (w : World csv) v w' v' c :
  ~ In href (scraped_links v) ->
  Turn read_csv to_csv driver_get n i href w v (w', v', c) ->
  fetched (trace w') = fetched (trace w) ++ filter (prefix SITE) [href] /\
  (forall x, In x (scraped_links v') -> x = href \/ In x (scraped_links v)).
Proof.
  intros Hnew HT.
  inversion HT; subst; try contradiction.
  all: match goal with
       | H : prefix SITE _ = _ |- _ => cbn [filter]; rewrite H
       end.
  all: cbn [trace log]; rewrite ?trace_save_batch; cbn [trace log];
    rewrite ?fetched_app; cbn [fetched]; rewrite ?app_nil_r, <- ?app_assoc.
  all: split; [reflexivity | cbn [scraped_links]; intros x Hx].
  all: try (right; exact Hx).
  all: destruct Hx as [<-|Hx]; [now left | now right].
Qed.

Lemma loop_fetches_in_order (links : list string) :
  forall n i (w : World csv) v w' v' c,
    NoDup links ->
    (forall x, In x links -> ~ In x (scraped_links v)) ->
    loop read_csv to_csv driver_get n i links w v = (w', v', c) ->
    exists visited rest,
      fetched (trace w') = fetched (trace w) ++ visited /\
      filter (prefix SITE) links = visited ++ rest /\
      (c = Next -> rest = []).
Proof.
  induction links as [|href more IH]; intros n i w v w' v' c Hnd Hnew E.
  - simpl in E. inversion E; subst. exists [], []. rewrite app_nil_r. auto.
  - cbn [loop] in E.
    pose proof (body_Turn n i href w v) as HT.
    destruct (body read_csv to_csv driver_get n i href w v) as [[w1 v1] c1].
    destruct (turn_fetch (Hnew href (or_introl eq_refl)) HT) as [Hf Hs].
    inversion Hnd as [|? ? Hhead Hmore]; subst.
    assert (Hstop : c1 <> Next -> (w1, v1, c1) = (w', v', c) ->
                    exists visited rest,
                      fetched (trace w') = fetched (trace w) ++ visited /\
                      filter (prefix SITE) (href :: more) = visited ++ rest /\
                      (c = Next -> rest = [])).
    { intros Hc E'. inversion E'; subst.
      exists (filter (prefix SITE) [href]), (filter (prefix SITE) more).
      split; [exact Hf|]. split.
      - change (href :: more) with ([href] ++ more). apply filter_app.
      - intros. contradiction. }
    destruct c1; [| apply Hstop; [discriminate | exact E]
                  | apply Hstop; [discriminate | exact E]].
    assert (Hnew' : forall x, In x more -> ~ In x (scraped_links v1)).
    { intros x Hx Hin. destruct (Hs x Hin) as [->|Hold].
      - contradiction.
      - apply (Hnew x); [now right | exact Hold]. }
    destruct (IH _ _ _ _ _ _ _ Hmore Hnew' E)
      as [visited [rest [Hv [Hr Hc]]]].
    exists (filter (prefix SITE) [href] ++ visited), rest.
    split; [rewrite Hv, Hf, app_assoc; reflexivity|]. split.
    + change (href :: more) with ([href] ++ more).
      rewrite filter_app, Hr, app_assoc. reflexivity.
    + exact Hc.
Qed.

Lemma visits_of_a_run (links : list string) (w : World csv) :
  let '(w', v', c) :=
    scrape_erowid_reports read_csv to_csv list_set driver_get links w in
  exists visited rest,
    fetched (trace w') = fetched (trace w) ++ visited /\
    filter (prefix SITE)
           (filter (fun link => negb (mem link (load_scraped_links read_csv w)))
                   (list_set links))
    = visited ++ rest /\
    (c = Next -> rest = []).
Proof.
  unfold scrape_erowid_reports.
  fold (pending list_set links (load_scraped_links read_csv w)).
  set (todo := pending list_set links (load_scraped_links read_csv w)).
  match goal with
  | |- context [loop ?a ?b ?c ?n ?i ?l ?w0 ?v0] =>
      destruct (loop a b c n i l w0 v0) as [[w1 v1] c1] eqn:EL
  end.
  apply loop_fetches_in_order in EL.
  - destruct EL as [visited [rest [Hv [Hr Hc]]]].
    cbn [trace log] in Hv. rewrite fetched_app in Hv. simpl in Hv.
    rewrite app_nil_r in Hv.
    destruct c1; exists visited, rest; cbn [trace log];
      rewrite ?fetched_app; simpl fetched; rewrite ?app_nil_r; auto.
  - apply pending_NoDup.
  - intros x Hx. apply pending_In in Hx. simpl. tauto.
Qed.

(** C9, amended: the links are visited in the order of the pending list,
    which is the iteration order of the set built from the input with
    the links of the table left out. The visits are the well-formed
    pending links up to the link at which the run stops, and all of them
    when the loop runs to its end. *)
Theorem links_visited_in_set_order (links : list string) (w : World csv) :
  let '(w', v', c) :=
    scrape_erowid_reports read_csv to_csv list_set driver_get links w in
  exists visited rest,
    fetched (trace w') = fetched (trace w) ++ visited /\
    filter (prefix SITE)
           (filter (fun link => negb (mem link (load_scraped_links read_csv w)))
                   (list_set links))
    = visited ++ rest /\
    (c = Next -> rest = []).
Proof.
  exact (visits_of_a_run links w).
Qed.

(** Whatever the order of the set, no link is visited twice. *)
Lemma visits_NoDup (links : list string) (w : World csv) :
  let '(w', v', c) :=
    scrape_erowid_reports read_csv to_csv list_set driver_get links w in
  exists visited,
    fetched (trace w') = fetched (trace w) ++ visited /\ NoDup visited.
Proof.
  pose proof (visits_of_a_run links w) as H. revert H.
  destruct (scrape_erowid_reports read_csv to_csv list_set driver_get links w)
    as [[w' v'] c].
  intros [visited [rest [Hv [Hr _]]]]. exists visited. split; [exact Hv|].
  apply (NoDup_app_remove_r visited rest). rewrite <- Hr.
  apply NoDup_filter, NoDup_filter, list_set_NoDup.
Qed.

(** *** The saves of a run without a skipped link *)

Lemma body_extractable n i href (w : World csv) v :
  ~ In href (scraped_links v) ->
  extractable driver_get href = true ->
  exists p,
    driver_get href = Loaded p /\
    body read_csv to_csv driver_get n i href w v
    = store read_csv to_csv n i (extract p href) (log w [EvGet href]) v.
Proof.
  intros Hnew Hex. apply mem_false in Hnew.
  unfold extractable in Hex. apply andb_true_iff in Hex.
  destruct Hex as [Hsite Hex].
  destruct (driver_get href) as [p|] eqn:Hget; [|discriminate].
  apply andb_true_iff in Hex. destruct Hex as [Hban Hred].
  apply negb_true_iff in Hban. apply negb_true_iff in Hred.
  exists p. split; [reflexivity|].
  rewrite (body_loaded _ _ _ _ Hnew Hsite Hget).
  now apply on_page_store.
Qed.

Lemma loop_all_extractable (links : list string) :
  forall n i (w : World csv) v,
    NoDup links ->
    (forall x, In x links -> ~ In x (scraped_links v)) ->
    forallb (extractable driver_get) links = true ->
    exists w' v',
      loop read_csv to_csv driver_get n i links w v = (w', v', Next) /\
      saved_batches (trace w')
      = saved_batches (trace w)
        ++ filter (at_boundary n) (seq (i + 1) (List.length links)) /\
      processed_count v' = processed_count v + List.length links.
Proof.
  induction links as [|href more IH]; intros n i w v Hnd Hnew Hall.
  - exists w, v. simpl. rewrite app_nil_r, Nat.add_0_r. auto.
  - cbn [forallb] in Hall. apply andb_true_iff in Hall.
    destruct Hall as [Hex Hall].
    inversion Hnd as [|? ? Hhead Hmore]; subst.
    destruct (body_extractable n i href w v (Hnew href (or_introl eq_refl)) Hex)
      as [p [Hget Hbody]].
    cbn [loop]. rewrite Hbody. unfold store.
    change (flush_due n i) with (at_boundary n (i + 1)).
    cbn [List.length seq filter].
    assert (Hnew' : forall x, In x more ->
                              ~ In x (Link (extract p href) :: scraped_links v)).
    { intros x Hx [<-|Hin].
      - contradiction.
      - apply (Hnew x); [now right | exact Hin]. }
    destruct (at_boundary n (i + 1)).
    + match goal with
      | |- context [loop _ _ _ n (S i) more ?w1 ?v1] =>
          destruct (IH n (S i) w1 v1 Hmore Hnew' Hall)
            as [w' [v' [EL [Hs Hp]]]]
      end.
      exists w', v'. split; [exact EL|].
      rewrite Hs, Hp. cbn [trace log processed_count].
      rewrite trace_save_batch. cbn [trace log].
      rewrite !saved_batches_app. cbn [saved_batches].
      rewrite !app_nil_r, <- app_assoc. split; [reflexivity | lia].
    + match goal with
      | |- context [loop _ _ _ n (S i) more ?w1 ?v1] =>
          destruct (IH n (S i) w1 v1 Hmore Hnew' Hall)
            as [w' [v' [EL [Hs Hp]]]]
      end.
      exists w', v'. split; [exact EL|].
      rewrite Hs, Hp. cbn [trace log processed_count].
      rewrite !saved_batches_app. cbn [saved_batches].
      rewrite !app_nil_r. split; [reflexivity | lia].
Qed.




(** *** The ban page *)

(** With an [h2] element on the ban page the loop stops at once, after
    quitting the browser. *)
Lemma ban_stops_the_loop n i href rest p text (w : World csv) v :
  mem href (scraped_links v) = false ->
  prefix SITE href = true ->
  driver_get href = Loaded p ->
  contains BAN_SIGNATURE (page_source p) = true ->
  h2 p = Some text ->
  loop read_csv to_csv driver_get n i (href :: rest) w v
  = (log (log w [EvGet href])
         [EvPrint (MsgBanned (strip (last_field text)));
          EvPrint (MsgStopped (processed_count v));
          EvQuit],
     v, Break).
Proof.
  intros Hseen Hsite Hget Hban Hh2. cbn [loop].
  rewrite (body_loaded _ _ _ _ Hseen Hsite Hget).
  now rewrite (on_page_ban _ _ _ _ _ _ Hban Hh2).
Qed.

(** Without one, line 83 raises and the browser is never quit. *)
Lemma ban_without_h2_raises n i href rest p (w : World csv) v :
  mem href (scraped_links v) = false ->
  prefix SITE href = true ->
  driver_get href = Loaded p ->
  contains BAN_SIGNATURE (page_source p) = true ->
  h2 p = None ->
  loop read_csv to_csv driver_get n i (href :: rest) w v
  = (log w [EvGet href], v, Raise AttributeError).
Proof.
  intros Hseen Hsite Hget Hban Hh2. cbn [loop].
  rewrite (body_loaded _ _ _ _ Hseen Hsite Hget).
  now rewrite (on_page_ban_no_h2 _ _ _ _ _ _ Hban Hh2).
Qed.

End Run.

(** ** The concrete surroundings obey the assumptions *)

Lemma frame_read_write (df : DataFrame) : frame_read (frame_write df) = df.
Proof. reflexivity. Qed.

Lemma first_seen_from_In (xs : list string) :
  forall seen x, In x (first_seen_from seen xs) <-> In x xs /\ ~ In x seen.
Proof.
  induction xs as [|y rest IH]; intros seen x; simpl; [tauto|].
  destruct (mem y seen) eqn:E.
  - apply mem_In in E. rewrite IH. split.
    + tauto.
    + intros [[<-|H] Hout]; [contradiction | tauto].
  - apply mem_false in E. simpl. rewrite IH. simpl. split.
    + intros [<-|[H Hout]]; tauto.
    + intros [[<-|H] Hout]; [now left|].
      destruct (string_dec y x) as [->|Hne]; [now left | right; tauto].
Qed.

Lemma first_seen_from_NoDup (xs : list string) :
  forall seen, NoDup (first_seen_from seen xs).
Proof.
  induction xs as [|y rest IH]; intros seen; simpl; [constructor|].
  destruct (mem y seen); [apply IH|].
  constructor; [|apply IH].
  rewrite first_seen_from_In. simpl. tauto.
Qed.

Lemma first_seen_NoDup (xs : list string) : NoDup (first_seen xs).
Proof. apply first_seen_from_NoDup. Qed.

Lemma first_seen_In (xs : list string) (x : string) :
  In x (first_seen xs) <-> In x xs.
Proof. unfold first_seen. rewrite first_seen_from_In. simpl. tauto. Qed.

Lemma last_seen_NoDup (xs : list string) : NoDup (last_seen xs).
Proof. apply NoDup_rev, first_seen_NoDup. Qed.

Lemma last_seen_In (xs : list string) (x : string) :
  In x (last_seen xs) <-> In x xs.
Proof. unfold last_seen. rewrite <- in_rev. apply first_seen_In. Qed.

(** ** The script on concrete runs *)

Lemma cleanup_links_unique_witness :
  (forall df, frame_read (frame_write df) = df) /\
  NoDup (Link_column
           (table frame_read
                  (remove_duplicates_from_csv frame_read frame_write stocked))).
Proof.
  split; [exact frame_read_write|].
  exact (@cleanup_links_unique DataFrame frame_read frame_write
                               frame_read_write stocked).
Defined.

Lemma cleanup_idempotent_when_read_back_witness :
  (forall c, reports_file worded = Some c ->
             Pandas.read_csv (Pandas.to_csv (drop_duplicates (Pandas.read_csv c)))
             = drop_duplicates (Pandas.read_csv c)) /\
  reports_file (remove_duplicates_from_csv Pandas.read_csv Pandas.to_csv worded)
  = Some [["A Night Out"; "Caffeine"; "Toby"; "70 kg"; "none"; "Late."; "L1"];
          ["A Day In"; "Tea"; "Abby"; "60 kg"; "none"; "Early."; "L2"]] /\
  reports_file (remove_duplicates_from_csv Pandas.read_csv Pandas.to_csv
                  (remove_duplicates_from_csv Pandas.read_csv Pandas.to_csv worded))
  = reports_file (remove_duplicates_from_csv Pandas.read_csv Pandas.to_csv worded).
Proof.
  assert (H : forall c, reports_file worded = Some c ->
                        Pandas.read_csv (Pandas.to_csv (drop_duplicates (Pandas.read_csv c)))
                        = drop_duplicates (Pandas.read_csv c)).
  { intros c E. injection E as <-. vm_compute. reflexivity. }
  split; [exact H|]. split; [vm_compute; reflexivity|].
  exact (proj1 (@cleanup_idempotent_when_read_back
                  Grid Pandas.read_csv Pandas.to_csv worded H)).
Defined.

(** C2 as stated fails: the first pass drops the row with abc and writes
    007, kept as a text because the column also held abc; the second
    pass reads the column as integers and writes 7. *)
Lemma cleanup_twice_counterexample :
  reports_file (remove_duplicates_from_csv Pandas.read_csv Pandas.to_csv weighed)
  = Some [["A Night Out"; "Caffeine"; "Toby"; "007"; "none"; "Late."; "L1"]] /\
  reports_file (remove_duplicates_from_csv Pandas.read_csv Pandas.to_csv
                  (remove_duplicates_from_csv Pandas.read_csv Pandas.to_csv weighed))
  = Some [["A Night Out"; "Caffeine"; "Toby"; "7"; "none"; "Late."; "L1"]] /\
  reports_file (remove_duplicates_from_csv Pandas.read_csv Pandas.to_csv
                  (remove_duplicates_from_csv Pandas.read_csv Pandas.to_csv weighed))
  <> reports_file (remove_duplicates_from_csv Pandas.read_csv Pandas.to_csv weighed).
Proof.
  vm_compute. repeat split. discriminate.
Qed.

Lemma missing_fields_get_placeholders_witness :
  div_author (plain_page (report_link 1)) = None /\
  Author (extract (plain_page (report_link 1)) (report_link 1)) = "Unknown".
Proof.
  split; [reflexivity|].
  destruct (@missing_fields_get_placeholders
              DataFrame frame_read frame_write
              (plain_page (report_link 1)) (report_link 1))
    as (_ & _ & Hauthor & _).
  apply Hauthor. reflexivity.
Defined.

Lemma nothing_left_to_scrape_witness :
  (forall l, In l [report_link 2; report_link 1; report_link 2] ->
             In (Some l) (Link_column (table frame_read stocked))) /\
  exists w' v',
    scrape_erowid_reports frame_read frame_write first_seen web_ok
                          [report_link 2; report_link 1; report_link 2] stocked
    = (w', v', Next) /\
    pending first_seen [report_link 2; report_link 1; report_link 2]
            (load_scraped_links frame_read stocked) = [] /\
    fetched (trace w') = fetched (trace stocked) /\
    written (trace w') = written (trace stocked) /\
    processed_count v' = 0 /\
    reports_file w' = reports_file stocked /\
    links_file w' = links_file stocked.
Proof.
  assert (H : forall l, In l [report_link 2; report_link 1; report_link 2] ->
                        In (Some l) (Link_column (table frame_read stocked))).
  { intros l [<-|[<-|[<-|[]]]]; vm_compute; tauto. }
  split; [exact H|].
  exact (@nothing_left_to_scrape DataFrame frame_read frame_write first_seen
                                 web_ok first_seen_In _ stocked H).
Defined.

Lemma timed_out_link_stays_pending_witness :
  web_slow (report_link 3) (report_link 3) = TimedOut /\
  In (report_link 3) (report_links_upto 4) /\
  ~ In (Some (report_link 3)) (Link_column (table frame_read stocked)) /\
  let '(w', _, _) :=
    scrape_erowid_reports frame_read frame_write first_seen
                          (web_slow (report_link 3)) (report_links_upto 4)
                          stocked in
  ~ In (Some (report_link 3)) (Link_column (table frame_read w')) /\
  In (report_link 3)
     (pending first_seen (report_links_upto 4)
              (load_scraped_links frame_read w')).
Proof.
  assert (H1 : web_slow (report_link 3) (report_link 3) = TimedOut)
    by reflexivity.
  assert (H2 : In (report_link 3) (report_links_upto 4))
    by (vm_compute; tauto).
  assert (H3 : ~ In (Some (report_link 3))
                    (Link_column (table frame_read stocked)))
    by (vm_compute; intros [H|[H|[H|[]]]]; discriminate H).
  split; [exact H1|]. split; [exact H2|]. split; [exact H3|].
  exact (proj2 (@timed_out_link_stays_pending
                  DataFrame frame_read frame_write first_seen
                  (web_slow (report_link 3)) frame_read_write first_seen_In
                  (report_links_upto 4) stocked (report_link 3) H1 H2 H3)).
Defined.


Lemma links_visited_in_set_order_witness :
  let '(w', _, c) :=
    scrape_erowid_reports frame_read frame_write last_seen
                          (web_ban (report_link 2))
                          [report_link 1; report_link 2; report_link 3;
                           report_link 1]
                          fresh in
  exists visited rest,
    fetched (trace w') = fetched (trace fresh) ++ visited /\
    filter (prefix SITE)
           (filter (fun link =>
                      negb (mem link (load_scraped_links frame_read fresh)))
                   (last_seen [report_link 1; report_link 2; report_link 3;
                               report_link 1]))
    = visited ++ rest /\
    (c = Next -> rest = []).
Proof.
  exact (@links_visited_in_set_order
           DataFrame frame_read frame_write last_seen
           (web_ban (report_link 2)) last_seen_NoDup last_seen_In
           [report_link 1; report_link 2; report_link 3; report_link 1]
           fresh).
Defined.

(** C9 as stated fails: with a set that iterates in the reverse of the
    insertion order, two links given as 1, 2 are visited as 2, 1; and
    whatever the order of the set, a link given twice is visited once. *)
Lemma input_order_counterexample :
  (forall xs, NoDup (last_seen xs)) /\
  (forall xs x, In x (last_seen xs) <-> In x xs) /\
  (let '(w', _, _) :=
     scrape_erowid_reports frame_read frame_write last_seen web_ok
                           [report_link 1; report_link 2] fresh in
   fetched (trace w') = [report_link 2; report_link 1] /\
   fetched (trace w') <> [report_link 1; report_link 2]) /\
  (forall list_set : list string -> list string,
      (forall xs, NoDup (list_set xs)) ->
      (forall xs x, In x (list_set xs) <-> In x xs) ->
      let '(w', _, _) :=
        scrape_erowid_reports frame_read frame_write list_set web_ok
                              [report_link 1; report_link 1] fresh in
      fetched (trace w') <> [report_link 1; report_link 1]).
Proof.
  split; [exact last_seen_NoDup|]. split; [exact last_seen_In|]. split.
  - vm_compute. split; [reflexivity | discriminate].
  - intros list_set Hnd Hin.
    pose proof (@visits_NoDup DataFrame frame_read frame_write list_set web_ok
                              Hnd Hin [report_link 1; report_link 1] fresh)
      as H.
    revert H.
    destruct (scrape_erowid_reports frame_read frame_write list_set web_ok
                [report_link 1; report_link 1] fresh) as [[w' v'] c].
    intros [visited [Hv Hn]] E. simpl in Hv. rewrite E in Hv. subst visited.
    inversion Hn as [|? ? Hhead _]. apply Hhead. now left.
Qed.



(** C5 fails on a page that carries the ban signature outside any [h2]
    element: line 83 raises [AttributeError], which nothing catches, so
    the function is left before [driver.quit()] and the script ends with
    the exception. No further link is fetched. *)
Theorem ban_page_without_h2_skips_quit :
  contains BAN_SIGNATURE (page_source (ban_page_no_h2 (report_link 2))) = true /\
  h2 (ban_page_no_h2 (report_link 2)) = None /\
  (let '(w', _, c) :=
     scrape_erowid_reports frame_read frame_write first_seen
                           (web_ban_no_h2 (report_link 2))
                           (report_links_upto 3) fresh in
   c = Raise AttributeError /\
   quits (trace w') = 0 /\
   fetched (trace w') = [report_link 1; report_link 2]) /\
  (let '(w', r) :=
     main frame_read frame_write first_seen
          (web_ban_no_h2 (report_link 2)) listed in
   r = Raised AttributeError /\
   quits (trace w') = 0 /\
   reports_file w' = None).
Proof.
  vm_compute. repeat split; reflexivity.
Qed.

(** On the ban page of the site, which has the [h2] element, the same run
    stops at the second link and quits the browser. *)
Example ban_page_with_h2_quits :
  let '(w', _, c) :=
    scrape_erowid_reports frame_read frame_write first_seen
                          (web_ban (report_link 2))
                          (report_links_upto 3) fresh in
  c = Break /\
  quits (trace w') = 2 /\
  fetched (trace w') = [report_link 1; report_link 2].
Proof.
  vm_compute. repeat split; reflexivity.
Qed.

(** ** The text helpers on examples *)

Example strip_ex : strip "  by Alice  " = "by Alice".
Proof. reflexivity. Qed.

Example replace_by_ex : strip (replace_by "by abby road") = "ab road".
Proof. reflexivity. Qed.

Example last_field_ex :
  last_field "403 Forbidden: Your IP: 10.0.0.1" = "10.0.0.1".
Proof. reflexivity. Qed.

Example splitlines_ex :
  splitlines ("a" ++ NL ++ NL ++ "b" ++ String "013"%char NL)%string
  = ["a"; EmptyString; "b"].
Proof. reflexivity. Qed.

Example contains_ex : contains "reset.me" "https://reset.me/story" = true.
Proof. reflexivity. Qed.

(** * Further properties *)

(** ** More on drop_duplicates *)

Lemma drop_duplicates_from_keeps_keys (df : DataFrame) :
  forall seen k,
    In k (Link_column df) -> ~ In k seen ->
    In k (Link_column (drop_duplicates_from seen df)).
Proof.
  induction df as [|r rest IH]; intros seen k Hk Hout; simpl in *; [tauto|].
  destruct (mem_cell (col_Link r) seen) eqn:E.
  - apply mem_cell_In in E. destruct Hk as [<-|Hk]; [contradiction|].
    now apply IH.
  - simpl. destruct Hk as [Hk|Hk]; [now left|].
    destruct (Cell_eqb (col_Link r) k) eqn:Ek.
    + apply Cell_eqb_eq in Ek. now left.
    + right. apply IH; [assumption|].
      intros [Heq|Hs]; [|contradiction].
      apply Cell_eqb_eq in Heq. congruence.
Qed.

Lemma drop_duplicates_keeps_keys (df : DataFrame) (k : Cell) :
  In k (Link_column df) -> In k (Link_column (drop_duplicates df)).
Proof.
  intros H. apply drop_duplicates_from_keeps_keys; [assumption | intros []].
Qed.

Lemma drop_duplicates_from_fixed (df : DataFrame) :
  forall seen,
    NoDup (Link_column df) ->
    (forall k, In k (Link_column df) -> ~ In k seen) ->
    drop_duplicates_from seen df = df.
Proof.
  induction df as [|r rest IH]; intros seen Hnd Hout; simpl in *; [reflexivity|].
  inversion Hnd as [|? ? Hhead Hrest]; subst.
  destruct (mem_cell (col_Link r) seen) eqn:E.
  - apply mem_cell_In in E. exfalso. apply (Hout (col_Link r)); auto.
  - f_equal. apply IH; [assumption|].
    intros k Hk [<-|Hs]; [contradiction|].
    apply (Hout k); auto.
Qed.

Lemma drop_duplicates_fixed (df : DataFrame) :
  NoDup (Link_column df) -> drop_duplicates df = df.
Proof.
  intros H. apply drop_duplicates_from_fixed; [assumption | intros k _ []].
Qed.

Lemma drop_duplicates_from_app (a b : DataFrame) :
  forall seen,
    drop_duplicates_from seen (a ++ b)
    = drop_duplicates_from seen a
      ++ drop_duplicates_from
           (rev (Link_column (drop_duplicates_from seen a)) ++ seen) b.
Proof.
  induction a as [|r rest IH]; intros seen; simpl; [reflexivity|].
  destruct (mem_cell (col_Link r) seen) eqn:E.
  - apply IH.
  - simpl. f_equal. rewrite IH. rewrite <- app_assoc. reflexivity.
Qed.

(** Appending a batch to a table without repeated links and dropping
    the duplicates leaves the table in front, rows and order. *)
Lemma drop_duplicates_app_fixed (a b : DataFrame) :
  NoDup (Link_column a) ->
  drop_duplicates (a ++ b)
  = a ++ drop_duplicates_from (rev (Link_column a) ++ []) b.
Proof.
  intros H. unfold drop_duplicates. rewrite drop_duplicates_from_app.
  fold (drop_duplicates a). rewrite (drop_duplicates_fixed a H). reflexivity.
Qed.


(** ** More on the cleanup pass *)

Section CleanupMore.

Variable csv : Type.
Variable read_csv : csv -> DataFrame.
Variable to_csv : DataFrame -> csv.
Hypothesis read_to_csv : forall df, read_csv (to_csv df) = df.


(** X13: on a table without repeated links the cleanup pass changes no
    row: the table it leaves is the table it found. *)
Theorem cleanup_leaves_clean_table (w : World csv) :
  NoDup (Link_column (table read_csv w)) ->
  table read_csv (remove_duplicates_from_csv read_csv to_csv w)
  = table read_csv w.
Proof.
  intros H. rewrite (cleanup_table read_csv to_csv read_to_csv w).
  now apply drop_duplicates_fixed.
Qed.

End CleanupMore.

(** ** More on the fetch run *)

Section RunMore.

Variable csv : Type.
Variable read_csv : csv -> DataFrame.
Variable to_csv : DataFrame -> csv.
Variable list_set : list string -> list string.
Variable driver_get : string -> GetResult.

Hypothesis read_to_csv : forall df, read_csv (to_csv df) = df.
Hypothesis list_set_NoDup : forall xs, NoDup (list_set xs).
Hypothesis list_set_In : forall xs x, In x (list_set xs) <-> In x xs.

(** The function is its loop between two prints; the second print and
    [driver.quit()] are skipped when an exception leaves the loop. *)
Lemma scrape_shape (links : list string) (w w' : World csv) v' c :
  scrape_erowid_reports read_csv to_csv list_set driver_get links w
  = (w', v', c) ->
  exists w1,
    loop read_csv to_csv driver_get
         (List.length (pending list_set links (load_scraped_links read_csv w)))
         0
         (pending list_set links (load_scraped_links read_csv w))
         (log w [EvPrint
                   (MsgRemaining
                      (List.length
                         (pending list_set links
                                  (load_scraped_links read_csv w))))])
         {| all_data := []; processed_count := 0;
            scraped_links := load_scraped_links read_csv w |}
    = (w1, v', c) /\
    w' = match c with
         | Raise _ => w1
         | _ => log w1 [EvPrint (MsgFinished (processed_count v')); EvQuit]
         end.
Proof.
  unfold scrape_erowid_reports. intros E.
  match type of E with
  | context [loop ?a ?b ?c ?n ?i ?l ?w0 ?v0] =>
      destruct (loop a b c n i l w0 v0) as [[w1 v1] c1] eqn:EL
  end.
  exists w1. destruct c1; inversion E; subst; auto.
Qed.

(** A loop lemma for properties that also depend on how the loop ends. *)
Lemma loop_outcome (P : World csv -> World csv -> Ctl -> Prop) :
  (forall w, P w w Next) ->
  (forall n i href w v w1 v1 c1,
      Turn read_csv to_csv driver_get n i href w v (w1, v1, c1) ->
      (c1 <> Next -> P w w1 c1) /\
      (c1 = Next -> forall w2 c2, P w1 w2 c2 -> P w w2 c2)) ->
  forall links n i w v w' v' c,
    loop read_csv to_csv driver_get n i links w v = (w', v', c) ->
    P w w' c.
Proof.
  intros Hnil Hstep links.
  induction links as [|href rest IH]; intros n i w v w' v' c E; simpl in E.
  - inversion E; subst. apply Hnil.
  - pose proof (body_Turn read_csv to_csv driver_get n i href w v) as HT.
    destruct (body read_csv to_csv driver_get n i href w v) as [[w1 v1] c1].
    destruct (Hstep _ _ _ _ _ _ _ _ HT) as [Hstop Hnext].
    destruct c1.
    + apply (Hnext eq_refl). eapply IH, E.
    + inversion E; subst. apply Hstop. discriminate.
    + inversion E; subst. apply Hstop. discriminate.
Qed.

(** *** How often the browser is quit *)

Lemma loop_quits (links : list string) :
  forall n i (w : World csv) v w' v' c,
    loop read_csv to_csv driver_get n i links w v = (w', v', c) ->
    quits (trace w')
    = quits (trace w) + match c with Break => 1 | _ => 0 end.
Proof.
  intros n i w v w' v' c E.
  apply (loop_outcome
           (fun w w' c =>
              quits (trace w')
              = quits (trace w) + match c with Break => 1 | _ => 0 end))
    with (1 := fun w => eq_sym (Nat.add_0_r _)) (3 := E).
  clear. intros n i href w v w1 v1 c1 HT.
  inversion HT; subst; cbn [trace log];
    rewrite ?trace_save_batch; cbn [trace log];
    rewrite ?quits_app; cbn [quits];
    (split; [intros Hc; try (exfalso; apply Hc; reflexivity); lia
            | intros Hc; try discriminate Hc; intros w2 c2 Hrest;
              rewrite Hrest; cbn [trace log];
              rewrite ?trace_save_batch; cbn [trace log];
              rewrite ?quits_app; cbn [quits]; lia]).
Qed.

(** X10: [driver.quit()] is called once when the loop runs to its end,
    twice when a ban page with an [h2] stops it (line 86, then line 149
    again), and never when an exception leaves the function. *)
Theorem quit_calls_of_a_run (links : list string) (w : World csv) :
  let '(w', v', c) :=
    scrape_erowid_reports read_csv to_csv list_set driver_get links w in
  quits (trace w')
  = quits (trace w) + match c with Next => 1 | Break => 2 | Raise _ => 0 end.
Proof.
  destruct (scrape_erowid_reports read_csv to_csv list_set driver_get links w)
    as [[w' v'] c] eqn:E.
  apply scrape_shape in E. destruct E as [w1 [EL ->]].
  apply loop_quits in EL. cbn [trace log] in EL.
  rewrite quits_app in EL. cbn [quits] in EL.
  destruct c; cbn [trace log]; rewrite ?quits_app; cbn [quits]; lia.
Qed.

(** *** What a run writes *)

Lemma links_file_save_batch (w : World csv) (data : list Report) :
  links_file (save_batch read_csv to_csv w data) = links_file w.
Proof. unfold save_batch. destruct (reports_file w); reflexivity. Qed.

Lemma loop_writes (links : list string) :
  forall n i (w : World csv) v w' v' c,
    loop read_csv to_csv driver_get n i links w v = (w', v', c) ->
    links_file w' = links_file w /\
    exists ks,
      saved_batches (trace w') = saved_batches (trace w) ++ ks /\
      written (trace w')
      = written (trace w) ++ repeat REPORTS_FILE (List.length ks) /\
      (ks = [] -> reports_file w' = reports_file w).
Proof.
  intros n i w v w' v' c E.
  apply (loop_outcome
           (fun w w' (_ : Ctl) =>
              links_file w' = links_file w /\
              exists ks,
                saved_batches (trace w') = saved_batches (trace w) ++ ks /\
                written (trace w')
                = written (trace w) ++ repeat REPORTS_FILE (List.length ks) /\
                (ks = [] -> reports_file w' = reports_file w)))
    with (3 := E).
  { intros w0. split; [reflexivity|]. exists []. simpl.
    rewrite !app_nil_r. auto. }
  clear. intros n i href w v w1 v1 c1 HT.
  assert (Hone :
            links_file w1 = links_file w /\
            exists ks,
              saved_batches (trace w1) = saved_batches (trace w) ++ ks /\
              written (trace w1)
              = written (trace w) ++ repeat REPORTS_FILE (List.length ks) /\
              (ks = [] -> reports_file w1 = reports_file w)).
  { inversion HT; subst; cbn [links_file log];
      rewrite ?links_file_save_batch; cbn [links_file log];
      (split; [reflexivity|]).
    8:{ exists [i + 1]. cbn [trace log]. rewrite trace_save_batch.
        cbn [trace log].
        rewrite !saved_batches_app, !written_app. cbn.
        rewrite !app_nil_r. repeat split.
        intros Hnil. discriminate Hnil. }
    all: exists []; cbn [trace log reports_file];
      rewrite ?saved_batches_app, ?written_app; cbn;
      rewrite ?app_nil_r; auto. }
  split; [intros _; exact Hone|].
  intros _ w2 c2 [Hl [ks2 [Hs2 [Hw2 Hr2]]]].
  destruct Hone as [Hl1 [ks1 [Hs1 [Hw1 Hr1]]]].
  split; [congruence|]. exists (ks1 ++ ks2).
  rewrite Hs2, Hs1, Hw2, Hw1, length_app, repeat_app, <- !app_assoc.
  repeat split.
  intros Hnil. apply app_eq_nil in Hnil. destruct Hnil as [H1 H2].
  rewrite (Hr2 H2). exact (Hr1 H1).
Qed.

(** X11: a fetch run never touches the Link Set file, writes no other file
    than the Report Table, writes it once per "Saved batch" line, and
    leaves it as it was when no batch is saved. *)
Theorem run_writes_only_the_table (links : list string) (w : World csv) :
  let '(w', v', c) :=
    scrape_erowid_reports read_csv to_csv list_set driver_get links w in
  links_file w' = links_file w /\
  exists ks,
    saved_batches (trace w') = saved_batches (trace w) ++ ks /\
    written (trace w')
    = written (trace w) ++ repeat REPORTS_FILE (List.length ks) /\
    (ks = [] -> reports_file w' = reports_file w).
Proof.
  destruct (scrape_erowid_reports read_csv to_csv list_set driver_get links w)
    as [[w' v'] c] eqn:E.
  apply scrape_shape in E. destruct E as [w1 [EL ->]].
  apply loop_writes in EL. destruct EL as [Hl [ks [Hs [Hw Hr]]]].
  cbn [trace log links_file reports_file] in Hl, Hs, Hw, Hr.
  rewrite saved_batches_app in Hs. rewrite written_app in Hw.
  cbn in Hs, Hw. rewrite app_nil_r in Hs, Hw.
  assert (G : links_file w1 = links_file w /\
              exists ks,
                saved_batches (trace w1) = saved_batches (trace w) ++ ks /\
                written (trace w1)
                = written (trace w) ++ repeat REPORTS_FILE (List.length ks) /\
                (ks = [] -> reports_file w1 = reports_file w)).
  { split; [exact Hl|]. exists ks. auto. }
  destruct c; [| |exact G];
    (cbn [links_file reports_file trace log];
     rewrite saved_batches_app, written_app; cbn; rewrite !app_nil_r;
     exact G).
Qed.

(** *** The table only grows *)

(** X5: a fetch run loses no link: every value of the Link column before
    the run is in the Link column after it. *)
Theorem run_keeps_every_link (links : list string) (w : World csv) :
  let '(w', v', c) :=
    scrape_erowid_reports read_csv to_csv list_set driver_get links w in
  forall k, In k (Link_column (table read_csv w)) ->
            In k (Link_column (table read_csv w')).
Proof.
  destruct (scrape_erowid_reports read_csv to_csv list_set driver_get links w)
    as [[w' v'] c] eqn:E.
  apply scrape_invariant
    with (I := fun w1 (_ : Locals) =>
                 forall k, In k (Link_column (table read_csv w)) ->
                           In k (Link_column (table read_csv w1))) in E.
  - exact E.
  - intros n i href w0 v0 w1 v1 c1 HI HT.
    inversion HT; subst; try exact HI.
    intros k Hk. rewrite table_log, (table_save_batch read_csv to_csv read_to_csv).
    apply drop_duplicates_keeps_keys.
    unfold Link_column. rewrite map_app. apply in_or_app. left.
    apply (HI k Hk).
  - intros w0 v0 es H. exact H.
  - auto.
Qed.

(** X6: on a table without repeated links a fetch run only appends rows:
    the old table is the front part of the new one, rows and order, and
    the new table has no repeated link either. *)
Theorem run_only_appends (links : list string) (w : World csv) :
  NoDup (Link_column (table read_csv w)) ->
  let '(w', v', c) :=
    scrape_erowid_reports read_csv to_csv list_set driver_get links w in
  (exists added, table read_csv w' = table read_csv w ++ added) /\
  NoDup (Link_column (table read_csv w')).
Proof.
  intros Hnd.
  destruct (scrape_erowid_reports read_csv to_csv list_set driver_get links w)
    as [[w' v'] c] eqn:E.
  apply scrape_invariant
    with (I := fun w1 (_ : Locals) =>
                 (exists added, table read_csv w1 = table read_csv w ++ added) /\
                 NoDup (Link_column (table read_csv w1))) in E.
  - exact E.
  - intros n i href w0 v0 w1 v1 c1 [[added Ha] Hn] HT.
    inversion HT; subst; try (split; [now exists added | exact Hn]).
    rewrite table_log, (table_save_batch read_csv to_csv read_to_csv).
    split; [|apply drop_duplicates_NoDup].
    rewrite table_log in *. rewrite (drop_duplicates_app_fixed _ _ Hn), Ha.
    rewrite <- app_assoc. eexists. reflexivity.
  - intros w0 v0 es H. exact H.
  - split; [exists []; now rewrite app_nil_r | exact Hnd].
Qed.

(** *** Where the rows come from *)




(** *** Where the browser goes *)

(** X3: during a fetch run the browser is only sent to links of the input
    that start with the address of the site and are not yet in the Link
    column of the table, and to none of them twice. *)
Theorem browser_visits_pending_links_once (links : list string) (w : World csv) :
  let '(w', v', c) :=
    scrape_erowid_reports read_csv to_csv list_set driver_get links w in
  exists visited,
    fetched (trace w') = fetched (trace w) ++ visited /\
    NoDup visited /\
    forall url, In url visited ->
                prefix SITE url = true /\
                In url links /\
                ~ In (Some url) (Link_column (table read_csv w)).
Proof.
  pose proof (visits_of_a_run read_csv to_csv list_set driver_get
                              list_set_NoDup list_set_In links w) as H.
  revert H.
  destruct (scrape_erowid_reports read_csv to_csv list_set driver_get links w)
    as [[w' v'] c].
  intros [visited [rest [Hv [Hr _]]]]. exists visited.
  split; [exact Hv|]. split.
  - apply (NoDup_app_remove_r visited rest). rewrite <- Hr.
    apply NoDup_filter, NoDup_filter, list_set_NoDup.
  - intros url Hu.
    assert (Hin : In url (visited ++ rest)) by (apply in_or_app; now left).
    rewrite <- Hr in Hin. apply filter_In in Hin. destruct Hin as [Hin Hsite].
    apply filter_In in Hin. destruct Hin as [Hin Hnew].
    apply (proj1 (list_set_In _ _)) in Hin.
    apply negb_true_iff, mem_false in Hnew.
    repeat split; [exact Hsite | exact Hin |].
    intros Hk. apply Hnew.
    now apply (load_scraped_links_In read_csv driver_get).
Qed.

(** *** A run without a skipped link saves everything *)

Lemma flush_due_last (n i : nat) : flush_due n i = false -> i + 1 <> n.
Proof.
  unfold flush_due. intros H. apply orb_false_iff in H.
  destruct H as [_ H]. now apply Nat.eqb_neq in H.
Qed.

Lemma saved_records_in_table (w : World csv) (data : list Report) (d : Report) :
  In d data ->
  In (Some (Link d))
     (Link_column (table read_csv (save_batch read_csv to_csv w data))).
Proof.
  intros H. rewrite (table_save_batch read_csv to_csv read_to_csv).
  apply drop_duplicates_keeps_keys. unfold Link_column. rewrite map_app.
  apply in_or_app. right. fold (Link_column (DataFrame_of data)).
  rewrite Link_column_of. apply in_map_iff. now exists d.
Qed.

Lemma saved_table_keeps_keys (w : World csv) (data : list Report) (k : Cell) :
  In k (Link_column (table read_csv w)) ->
  In k (Link_column (table read_csv (save_batch read_csv to_csv w data))).
Proof.
  intros H. rewrite (table_save_batch read_csv to_csv read_to_csv).
  apply drop_duplicates_keeps_keys. unfold Link_column. rewrite map_app.
  apply in_or_app. now left.
Qed.

Lemma loop_all_stored (links : list string) :
  forall n i (w : World csv) v,
    NoDup links ->
    (forall x, In x links -> ~ In x (scraped_links v)) ->
    forallb (extractable driver_get) links = true ->
    i + List.length links = n ->
    (links = [] -> all_data v = []) ->
    exists w' v',
      loop read_csv to_csv driver_get n i links w v = (w', v', Next) /\
      all_data v' = [] /\
      (forall d, In d (all_data v) ->
                 In (Some (Link d)) (Link_column (table read_csv w'))) /\
      (forall l, In l links ->
                 In (Some l) (Link_column (table read_csv w'))) /\
      (forall k, In k (Link_column (table read_csv w)) ->
                 In k (Link_column (table read_csv w'))).
Proof.
  induction links as [|href more IH]; intros n i w v Hnd Hnew Hall Hn Hbuf.
  - exists w, v. rewrite (Hbuf eq_refl). simpl. repeat split; tauto.
  - cbn [forallb] in Hall. apply andb_true_iff in Hall.
    destruct Hall as [Hex Hall].
    inversion Hnd as [|? ? Hhead Hmore]; subst.
    cbn [List.length] in *.
    destruct (body_extractable read_csv to_csv driver_get
                               (i + S (List.length more)) i href w v
                               (Hnew href (or_introl eq_refl)) Hex)
      as [p [Hget Hbody]].
    cbn [loop]. rewrite Hbody. unfold store.
    assert (Hnew' : forall x, In x more ->
                              ~ In x (Link (extract p href) :: scraped_links v)).
    { intros x Hx [<-|Hin].
      - contradiction.
      - apply (Hnew x); [now right | exact Hin]. }
    destruct (flush_due (i + S (List.length more)) i) eqn:Hdue.
    + match goal with
      | |- context [loop _ _ _ ?n0 (S i) more ?w1 ?v1] =>
          destruct (IH n0 (S i) w1 v1 Hmore Hnew' Hall ltac:(lia)
                       (fun _ => eq_refl))
            as [w' [v' [EL [Hempty [_ [Hl Hk]]]]]]
      end.
      exists w', v'. split; [exact EL|]. split; [exact Hempty|].
      assert (Hdata : forall d, In d (all_data v ++ [extract p href]) ->
                                In (Some (Link d))
                                   (Link_column (table read_csv w'))).
      { intros d Hd. apply Hk. rewrite table_log.
        now apply saved_records_in_table. }
      split; [|split].
      * intros d Hd. apply Hdata, in_or_app. now left.
      * intros l [<-|Hin]; [|now apply Hl].
        apply (Hdata (extract p href)), in_or_app. right. now left.
      * intros k Hin. apply Hk. rewrite table_log.
        now apply saved_table_keeps_keys.
    + apply flush_due_last in Hdue.
      assert (Hmany : more = [] -> all_data v ++ [extract p href] = []).
      { intros ->. simpl in Hdue. lia. }
      match goal with
      | |- context [loop _ _ _ ?n0 (S i) more ?w1 ?v1] =>
          destruct (IH n0 (S i) w1 v1 Hmore Hnew' Hall ltac:(lia) Hmany)
            as [w' [v' [EL [Hempty [Hd [Hl Hk]]]]]]
      end.
      exists w', v'. split; [exact EL|]. split; [exact Hempty|].
      cbn [all_data] in Hd.
      split; [|split].
      * intros d Hin. apply Hd, in_or_app. now left.
      * intros l [<-|Hin]; [|now apply Hl].
        apply (Hd (extract p href)), in_or_app. right. now left.
      * intros k Hin. apply Hk. exact Hin.
Qed.

(** X8: when every pending link is extracted, the run ends with an empty
    buffer and every link of the input in the Link column of the table,
    so a next run over the same links has nothing pending. *)
Theorem complete_run_leaves_nothing_pending (links : list string) (w : World csv) :
  forallb (extractable driver_get)
          (pending list_set links (load_scraped_links read_csv w)) = true ->
  let '(w', v', c) :=
    scrape_erowid_reports read_csv to_csv list_set driver_get links w in
  c = Next /\
  all_data v' = [] /\
  (forall l, In l links -> In (Some l) (Link_column (table read_csv w'))) /\
  pending list_set links (load_scraped_links read_csv w') = [].
Proof.
  intros Hall. unfold scrape_erowid_reports.
  set (todo := pending list_set links (load_scraped_links read_csv w)) in *.
  destruct (@loop_all_stored
              todo (List.length todo) 0
              (log w [EvPrint (MsgRemaining (List.length todo))])
              {| all_data := []; processed_count := 0;
                 scraped_links := load_scraped_links read_csv w |}
              (pending_NoDup list_set list_set_NoDup links
                             (load_scraped_links read_csv w)))
    as [w1 [v1 [EL [Hempty [_ [Hl Hk]]]]]].
  - intros x Hx. apply (pending_In list_set driver_get list_set_In) in Hx.
    simpl. tauto.
  - exact Hall.
  - reflexivity.
  - reflexivity.
  - fold todo in EL. rewrite EL.
    assert (Hin : forall l, In l links ->
                            In (Some l) (Link_column (table read_csv w1))).
    { intros l Hlin.
      destruct (mem l (load_scraped_links read_csv w)) eqn:Hm.
      - apply mem_In in Hm. apply Hk. rewrite table_log.
        now apply (load_scraped_links_In read_csv driver_get).
      - apply mem_false in Hm. apply Hl.
        apply (pending_In list_set driver_get list_set_In). tauto. }
    split; [reflexivity|]. split; [exact Hempty|]. split; [exact Hin|].
    apply (pending_nil list_set driver_get list_set_In).
    intros l Hlin. rewrite (load_scraped_links_In read_csv driver_get).
    now apply Hin.
Qed.

(** *** A skipped last link leaves the last records unsaved *)

Lemma loop_app (a b : list string) :
  forall n i (w : World csv) v,
    loop read_csv to_csv driver_get n i (a ++ b) w v
    = match loop read_csv to_csv driver_get n i a w v with
      | (w1, v1, Next) =>
          loop read_csv to_csv driver_get n (i + List.length a) b w1 v1
      | stopped => stopped
      end.
Proof.
  induction a as [|href rest IH]; intros n i w v.
  - simpl. rewrite Nat.add_0_r. reflexivity.
  - cbn [app loop List.length].
    destruct (body read_csv to_csv driver_get n i href w v) as [[w1 v1] c1].
    destruct c1; try reflexivity.
    rewrite IH. replace (S i + List.length rest) with (i + S (List.length rest))
      by lia.
    reflexivity.
Qed.

Lemma next_mod_batch (i : nat) :
  Nat.eqb ((i + 1) mod BATCH_SIZE) 0 = false ->
  (i + 1) mod BATCH_SIZE = i mod BATCH_SIZE + 1.
Proof.
  unfold BATCH_SIZE. intros H. apply Nat.eqb_neq in H.
  pose proof (Nat.div_mod_eq i 100) as E1.
  pose proof (Nat.div_mod_eq (i + 1) 100) as E2.
  pose proof (Nat.mod_upper_bound i 100 ltac:(discriminate)) as B1.
  pose proof (Nat.mod_upper_bound (i + 1) 100 ltac:(discriminate)) as B2.
  lia.
Qed.

(** While the last position is not reached, the buffer holds the records
    extracted since the last multiple of the batch size. *)
Lemma loop_before_the_end (links : list string) :
  forall n i (w : World csv) v,
    NoDup links ->
    (forall x, In x links -> ~ In x (scraped_links v)) ->
    forallb (extractable driver_get) links = true ->
    i + List.length links < n ->
    List.length (all_data v) = i mod BATCH_SIZE ->
    exists w' v',
      loop read_csv to_csv driver_get n i links w v = (w', v', Next) /\
      processed_count v' = processed_count v + List.length links /\
      List.length (all_data v') = (i + List.length links) mod BATCH_SIZE.
Proof.
  induction links as [|href more IH]; intros n i w v Hnd Hnew Hall Hn Hbuf.
  - exists w, v. simpl. rewrite !Nat.add_0_r. auto.
  - cbn [forallb] in Hall. apply andb_true_iff in Hall.
    destruct Hall as [Hex Hall].
    inversion Hnd as [|? ? Hhead Hmore]; subst.
    cbn [List.length] in *.
    destruct (body_extractable read_csv to_csv driver_get n i href w v
                               (Hnew href (or_introl eq_refl)) Hex)
      as [p [Hget Hbody]].
    cbn [loop]. rewrite Hbody. unfold store.
    assert (Hnew' : forall x, In x more ->
                              ~ In x (Link (extract p href) :: scraped_links v)).
    { intros x Hx [<-|Hin].
      - contradiction.
      - apply (Hnew x); [now right | exact Hin]. }
    assert (Hlast : Nat.eqb (i + 1) n = false) by (apply Nat.eqb_neq; lia).
    unfold flush_due. rewrite Hlast, orb_false_r.
    destruct (Nat.eqb ((i + 1) mod BATCH_SIZE) 0) eqn:Hmod.
    + apply Nat.eqb_eq in Hmod.
      match goal with
      | |- context [loop _ _ _ n (S i) more ?w1 ?v1] =>
          destruct (IH n (S i) w1 v1 Hmore Hnew' Hall ltac:(lia))
            as [w' [v' [EL [Hp Hb]]]]
      end.
      { cbn [all_data List.length]. rewrite <- Nat.add_1_r. now rewrite Hmod. }
      exists w', v'. split; [exact EL|].
      cbn [processed_count] in Hp.
      replace (i + S (List.length more)) with (S i + List.length more) by lia.
      split; [lia | exact Hb].
    + apply next_mod_batch in Hmod.
      match goal with
      | |- context [loop _ _ _ n (S i) more ?w1 ?v1] =>
          destruct (IH n (S i) w1 v1 Hmore Hnew' Hall ltac:(lia))
            as [w' [v' [EL [Hp Hb]]]]
      end.
      { cbn [all_data]. rewrite length_app. cbn [List.length].
        rewrite <- (Nat.add_1_r i), Hmod, Hbuf. reflexivity. }
      exists w', v'. split; [exact EL|].
      cbn [processed_count] in Hp.
      replace (i + S (List.length more)) with (S i + List.length more) by lia.
      split; [lia | exact Hb].
Qed.

(** X9: when the last pending link times out and the links before it are
    all extracted, the run ends normally but the records extracted after
    the last multiple of 100 are never saved: they are in the buffer when
    the function returns, and none of them is in the Report Table. *)
Theorem skipped_last_link_loses_the_tail
        (links earlier : list string) (last : string) (w : World csv) :
  pending list_set links (load_scraped_links read_csv w) = earlier ++ [last] ->
  forallb (extractable driver_get) earlier = true ->
  driver_get last = TimedOut ->
  let '(w', v', c) :=
    scrape_erowid_reports read_csv to_csv list_set driver_get links w in
  c = Next /\
  processed_count v' = List.length earlier /\
  List.length (all_data v') = List.length earlier mod BATCH_SIZE /\
  forall d, In d (all_data v') ->
            ~ In (Some (Link d)) (Link_column (table read_csv w')).
Proof.
  intros Hp Hall Hlast.
  destruct (scrape_erowid_reports read_csv to_csv list_set driver_get links w)
    as [[w' v'] c] eqn:E.
  assert (Hapart : buffer_apart read_csv w' v').
  { pose proof E as E'.
    apply scrape_invariant with (I := buffer_apart read_csv) in E'.
    - exact E'.
    - intros. eapply buffer_apart_turn; eassumption.
    - intros w0 v0 es H. exact H.
    - apply buffer_apart_start; exact driver_get. }
  apply scrape_shape in E. destruct E as [w1 [EL Ew]].
  rewrite Hp in EL. rewrite loop_app in EL.
  pose proof (pending_NoDup list_set list_set_NoDup links
                            (load_scraped_links read_csv w)) as Hnd.
  rewrite Hp in Hnd. apply NoDup_app_remove_r in Hnd.
  destruct (@loop_before_the_end
              earlier (List.length (earlier ++ [last])) 0
              (log w [EvPrint (MsgRemaining (List.length (earlier ++ [last])))])
              {| all_data := []; processed_count := 0;
                 scraped_links := load_scraped_links read_csv w |}
              Hnd)
    as [w2 [v2 [EL2 [Hc Hb]]]].
  - intros x Hx.
    assert (Hin : In x (pending list_set links (load_scraped_links read_csv w)))
      by (rewrite Hp; apply in_or_app; now left).
    apply (pending_In list_set driver_get list_set_In) in Hin. simpl. tauto.
  - exact Hall.
  - rewrite length_app. simpl. lia.
  - reflexivity.
  - rewrite EL2 in EL. cbn [loop] in EL.
    assert (Hskip : exists es,
               body read_csv to_csv driver_get
                    (List.length (earlier ++ [last]))
                    (0 + List.length earlier) last w2 v2
               = (log w2 es, v2, Next)).
    { destruct (mem last (scraped_links v2)) eqn:Hseen.
      - exists []. rewrite body_seen by assumption.
        unfold log. rewrite app_nil_r. now destruct w2.
      - destruct (prefix SITE last) eqn:Hsite.
        + eexists. now apply body_timeout.
        + eexists. now apply body_invalid. }
    destruct Hskip as [es Hskip]. rewrite Hskip in EL.
    inversion EL; subst. clear EL.
    cbn [processed_count Nat.add] in *.
    split; [reflexivity|]. split; [exact Hc|]. split; [exact Hb|].
    apply Hapart.
Qed.

(** *** Counting the records *)

Lemma NoDup_snoc (A : Type) (l : list A) (x : A) :
  NoDup l -> ~ In x l -> NoDup (l ++ [x]).
Proof.
  induction l as [|y l IH]; intros Hnd Hx; simpl.
  - constructor; [intros [] | constructor].
  - inversion Hnd as [|? ? Hy Hl]; subst. constructor.
    + intros Hin. apply in_app_or in Hin. destruct Hin as [Hin|[->|[]]].
      * contradiction.
      * apply Hx. now left.
    + apply IH; [assumption|]. intros Hin. apply Hx. now right.
Qed.

Lemma counted_turn (rows : nat) n i href (w : World csv) v w' v' c :
  buffer_apart read_csv w v /\
  NoDup (Link_column (table read_csv w)
         ++ map (fun d => Some (Link d)) (all_data v)) /\
  List.length (table read_csv w) + List.length (all_data v)
  = rows + processed_count v ->
  Turn read_csv to_csv driver_get n i href w v (w', v', c) ->
  buffer_apart read_csv w' v' /\
  NoDup (Link_column (table read_csv w')
         ++ map (fun d => Some (Link d)) (all_data v')) /\
  List.length (table read_csv w') + List.length (all_data v')
  = rows + processed_count v'.
Proof.
  intros [Hb [Hnd Hlen]] HT.
  split; [eapply buffer_apart_turn; eassumption|].
  assert (Hfresh : ~ In href (scraped_links v) ->
                   forall p,
                     NoDup ((Link_column (table read_csv w)
                             ++ map (fun d => Some (Link d)) (all_data v))
                            ++ [Some (Link (extract p href))])).
  { intros Hnew p. apply NoDup_snoc; [exact Hnd|]. simpl.
    destruct Hb as [_ [Htab Hbuf]]. intros Hin. apply in_app_or in Hin.
    destruct Hin as [Hin|Hin].
    - apply Hnew. now apply Htab.
    - apply in_map_iff in Hin. destruct Hin as [d [Ed Hd]].
      injection Ed as Ed. apply Hnew. rewrite <- Ed. now apply Hbuf. }
  inversion HT; subst; try (split; [exact Hnd | exact Hlen]).
  - (* kept in memory *)
    cbn [all_data processed_count]. rewrite table_log, map_app, length_app.
    cbn [map List.length]. rewrite app_assoc.
    split; [now apply Hfresh | lia].
  - (* saved *)
    cbn [all_data processed_count map List.length].
    rewrite table_log, (table_save_batch read_csv to_csv read_to_csv), table_log.
    assert (Hkeys : NoDup (Link_column
                             (table read_csv w
                              ++ DataFrame_of (all_data v ++ [extract p href])))).
    { unfold Link_column at 1. rewrite map_app.
      fold (Link_column (table read_csv w)).
      fold (Link_column (DataFrame_of (all_data v ++ [extract p href]))).
      rewrite Link_column_of, map_app. cbn [map]. rewrite app_assoc.
      now apply Hfresh. }
    rewrite (drop_duplicates_fixed _ Hkeys), app_nil_r.
    split; [exact Hkeys|].
    rewrite length_app. unfold DataFrame_of.
    rewrite length_map, length_app. cbn [List.length]. lia.
Qed.

(** X7: on a table without repeated links nothing a run extracts is ever
    dropped as a duplicate: the rows of the table after the run plus the
    records left in the buffer are the rows before the run plus
    [processed_count], the number the "Finished scraping" line prints. *)
Theorem every_record_is_saved_or_buffered (links : list string) (w : World csv) :
  NoDup (Link_column (table read_csv w)) ->
  let '(w', v', c) :=
    scrape_erowid_reports read_csv to_csv list_set driver_get links w in
  List.length (table read_csv w') + List.length (all_data v')
  = List.length (table read_csv w) + processed_count v'.
Proof.
  intros Hnd.
  destruct (scrape_erowid_reports read_csv to_csv list_set driver_get links w)
    as [[w' v'] c] eqn:E.
  apply scrape_invariant
    with (I := fun w1 v1 =>
                 buffer_apart read_csv w1 v1 /\
                 NoDup (Link_column (table read_csv w1)
                        ++ map (fun d => Some (Link d)) (all_data v1)) /\
                 List.length (table read_csv w1) + List.length (all_data v1)
                 = List.length (table read_csv w) + processed_count v1) in E.
  - apply E.
  - intros n i href w0 v0 w1 v1 c1 HI HT. eapply counted_turn; eassumption.
  - intros w0 v0 es H. exact H.
  - split; [apply buffer_apart_start; exact driver_get|].
    cbn [all_data processed_count map List.length]. rewrite app_nil_r.
    split; [exact Hnd | reflexivity].
Qed.

(** *** The whole script *)

Lemma collector_quits (start_url : string) (w : World csv) :
  quits (trace (fst (get_all_report_links list_set driver_get start_url w)))
  = quits (trace w).
Proof.
  unfold get_all_report_links.
  destruct (links_file w); [|destruct (driver_get start_url)];
    cbn [fst trace log write_links];
    rewrite ?quits_app; cbn [quits]; lia.
Qed.

Lemma cleanup_quits (w : World csv) :
  quits (trace (remove_duplicates_from_csv read_csv to_csv w))
  = quits (trace w).
Proof.
  unfold remove_duplicates_from_csv.
  destruct (reports_file w); [|reflexivity].
  cbn [trace log write_reports]. rewrite !quits_app. cbn [quits]. lia.
Qed.

(** X14: the script releases the browser exactly when it ends normally:
    if [main] returns, [driver.quit()] was called (once, or twice after
    a ban); if an exception ends it, [driver.quit()] was never called. *)
Theorem main_quits_unless_it_raises (w : World csv) :
  let '(w', r) := main read_csv to_csv list_set driver_get w in
  match r with
  | Ok _ => quits (trace w) < quits (trace w') <= quits (trace w) + 2
  | Raised _ => quits (trace w') = quits (trace w)
  end.
Proof.
  unfold main.
  pose proof (collector_quits BASE_URL w) as Hq.
  destruct (get_all_report_links list_set driver_get BASE_URL w)
    as [w1 [report_links|e]]; cbn [fst] in Hq; [|exact Hq].
  pose proof (quit_calls_of_a_run report_links w1) as Hr.
  destruct (scrape_erowid_reports read_csv to_csv list_set driver_get
              report_links w1) as [[w2 v2] c].
  destruct c; rewrite ?cleanup_quits; lia.
Qed.

(** X15: when the script ends normally, its last step has left the Report
    Table without a repeated link, whatever the fetch run wrote. *)
Theorem main_leaves_unique_links (w : World csv) :
  let '(w', r) := main read_csv to_csv list_set driver_get w in
  r = Ok tt -> NoDup (Link_column (table read_csv w')).
Proof.
  unfold main.
  destruct (get_all_report_links list_set driver_get BASE_URL w)
    as [w1 [report_links|e]]; [|discriminate].
  destruct (scrape_erowid_reports read_csv to_csv list_set driver_get
              report_links w1) as [[w2 v2] c].
  destruct c; try discriminate; intros _;
    rewrite (cleanup_table read_csv to_csv read_to_csv);
    apply drop_duplicates_NoDup.
Qed.

End RunMore.

(** ** More on the link collector *)

Lemma string_app_nil_r (s : string) : (s ++ EmptyString)%string = s.
Proof. induction s; simpl; congruence. Qed.

Lemma string_app_assoc (a b c : string) :
  ((a ++ b) ++ c)%string = (a ++ (b ++ c))%string.
Proof. induction a; simpl; congruence. Qed.

Lemma splitlines_from_one_line (x : string) :
  forall cur rest,
    one_line x = true ->
    splitlines_from cur (x ++ rest) = splitlines_from (cur ++ x) rest.
Proof.
  induction x as [|c x IH]; intros cur rest H; simpl in *.
  - now rewrite string_app_nil_r.
  - apply andb_true_iff in H. destruct H as [Hc Hx].
    apply negb_true_iff in Hc. rewrite Hc, IH by assumption.
    rewrite string_app_assoc. reflexivity.
Qed.

Lemma splitlines_from_NL (cur rest : string) :
  splitlines_from cur (NL ++ rest) = cur :: splitlines_from EmptyString rest.
Proof.
  unfold NL. simpl. destruct rest; reflexivity.
Qed.

(** Joining lines with "\n" and splitting the text again gives the lines
    back, when no line is empty or holds a line boundary. *)
Lemma splitlines_concat (lines : list string) :
  Forall (fun l => one_line l = true /\ l <> EmptyString) lines ->
  splitlines (String.concat NL lines) = lines.
Proof.
  unfold splitlines.
  induction lines as [|x rest IH]; intros H; [reflexivity|].
  inversion H as [|? ? [Hx Hne] Hrest]; subst.
  destruct rest as [|y rest].
  - simpl. rewrite <- (string_app_nil_r x) at 1.
    rewrite splitlines_from_one_line by assumption. simpl.
    destruct x; [contradiction | reflexivity].
  - change (String.concat NL (x :: y :: rest))
      with (x ++ NL ++ String.concat NL (y :: rest))%string.
    rewrite splitlines_from_one_line by assumption.
    rewrite splitlines_from_NL. simpl app. f_equal. now apply IH.
Qed.

Lemma prefix_SITE_nonempty (l : string) : prefix SITE l = true -> l <> EmptyString.
Proof. intros H ->. discriminate H. Qed.

Section CollectMore.

Variable csv : Type.
Variable list_set : list string -> list string.
Variable driver_get : string -> GetResult.

Hypothesis list_set_NoDup : forall xs, NoDup (list_set xs).
Hypothesis list_set_In : forall xs x, In x (list_set xs) <-> In x xs.

(** X1: on a first run (no Link Set file) with the index page loaded, the
    collector returns, each once, exactly the anchors of the page that
    start with the address of the site, fetches the start page and
    nothing else, and writes the links to the Link Set file, one per
    line; the Report Table is not touched. *)
Theorem first_run_collects_site_links
        (start_url : string) (p : Page) (w : World csv) :
  links_file w = None ->
  driver_get start_url = Loaded p ->
  exists w' links,
    get_all_report_links list_set driver_get start_url w = (w', Ok links) /\
    NoDup links /\
    (forall l, In l links <-> In l (anchors p) /\ prefix SITE l = true) /\
    links_file w' = Some (String.concat NL links) /\
    reports_file w' = reports_file w /\
    fetched (trace w') = fetched (trace w) ++ [start_url] /\
    written (trace w') = written (trace w) ++ [LINKS_FILE].
Proof.
  intros Hfile Hget. unfold get_all_report_links. rewrite Hfile, Hget.
  eexists; eexists. split; [reflexivity|].
  split; [apply list_set_NoDup|]. split.
  - intros l. rewrite list_set_In. simpl. apply filter_In.
  - cbn [links_file reports_file trace write_links log].
    rewrite !fetched_app, !written_app. cbn.
    rewrite !app_nil_r. repeat split.
Qed.

(** X2: the Link Set survives the file: when no collected link holds a
    line boundary, the run that finds the file written by the first run
    gets the very links the first run returned, without any fetch. *)
Theorem saved_links_are_loaded_back
        (start_url : string) (p : Page) (w : World csv) :
  links_file w = None ->
  driver_get start_url = Loaded p ->
  (forall l, In l (anchors p) -> prefix SITE l = true -> one_line l = true) ->
  exists w1 links1 w2 links2,
    get_all_report_links list_set driver_get start_url w = (w1, Ok links1) /\
    get_all_report_links list_set driver_get start_url w1 = (w2, Ok links2) /\
    (forall l, In l links2 <-> In l links1) /\
    NoDup links2 /\
    links_file w2 = links_file w1 /\
    fetched (trace w2) = fetched (trace w1).
Proof.
  intros Hfile Hget Hone.
  destruct (@first_run_collects_site_links start_url p w Hfile Hget)
    as [w1 [links1 [E1 [Hnd [Hin [Hl1 _]]]]]].
  exists w1, links1. unfold get_all_report_links at 2. rewrite Hl1.
  eexists; eexists. split; [exact E1|]. split; [reflexivity|].
  rewrite splitlines_concat.
  - split; [intros l; apply list_set_In|].
    split; [apply list_set_NoDup|].
    cbn [links_file trace log]. rewrite fetched_app. simpl.
    rewrite app_nil_r. auto.
  - apply Forall_forall. intros l Hl. apply Hin in Hl. destruct Hl as [Ha Hs].
    split; [now apply Hone | now apply prefix_SITE_nonempty].
Qed.

End CollectMore.

(** ** The Link Set file on later runs *)

(** A final line break after the last line changes nothing. *)
Lemma splitlines_concat_NL (lines : list string) :
  Forall (fun l => one_line l = true) lines ->
  lines <> [] ->
  splitlines (String.concat NL lines ++ NL) = lines.
Proof.
  unfold splitlines.
  induction lines as [|x rest IH]; intros H Hne; [contradiction|].
  inversion H as [|? ? Hx Hrest]; subst.
  destruct rest as [|y rest].
  - cbn [String.concat].
    rewrite splitlines_from_one_line by assumption.
    rewrite <- (string_app_nil_r NL), splitlines_from_NL. reflexivity.
  - change (String.concat NL (x :: y :: rest))
      with (x ++ NL ++ String.concat NL (y :: rest))%string.
    rewrite !string_app_assoc.
    rewrite splitlines_from_one_line by assumption.
    rewrite splitlines_from_NL. simpl app. f_equal.
    apply IH; [assumption | discriminate].
Qed.

Section LinkFile.

Variable csv : Type.
Variable list_set : list string -> list string.
Variable driver_get : string -> GetResult.

Hypothesis list_set_NoDup : forall xs, NoDup (list_set xs).
Hypothesis list_set_In : forall xs x, In x (list_set xs) <-> In x xs.

(** C8: when the Link Set file exists, the collector sends the browser
    nowhere, writes no file and returns the Link Set of the file
    unchanged: if the file holds the links [lines], one per line, with
    or without a line break after the last, the links returned are
    exactly those of [lines], each once (all of [lines], in some order,
    when no line is repeated). *)
Theorem links_file_is_reused
        (start_url : string) (w : World csv) (content : string) :
  links_file w = Some content ->
  exists w' links,
    get_all_report_links list_set driver_get start_url w = (w', Ok links) /\
    NoDup links /\
    links_file w' = links_file w /\
    reports_file w' = reports_file w /\
    fetched (trace w') = fetched (trace w) /\
    written (trace w') = written (trace w) /\
    forall lines,
      Forall (fun l => one_line l = true /\ l <> EmptyString) lines ->
      content = String.concat NL lines
      \/ (lines <> [] /\ content = (String.concat NL lines ++ NL)%string) ->
      (forall l, In l links <-> In l lines) /\
      (NoDup lines -> Permutation lines links).
Proof.
  intros E. unfold get_all_report_links. rewrite E.
  eexists; eexists. split; [reflexivity|].
  split; [apply list_set_NoDup|].
  cbn [links_file reports_file trace log].
  rewrite fetched_app, written_app. simpl. rewrite !app_nil_r.
  do 4 (split; [auto|]).
  intros lines Hlines Hshape.
  assert (Hs : splitlines content = lines).
  { destruct Hshape as [->|[Hne ->]].
    - now apply splitlines_concat.
    - apply splitlines_concat_NL; [|exact Hne].
      eapply Forall_impl; [|exact Hlines]. intros x [Hx _]. exact Hx. }
  rewrite Hs. split.
  - intros l. apply list_set_In.
  - intros Hnd.
    apply NoDup_Permutation; [exact Hnd | apply list_set_NoDup|].
    intros l. symmetry. apply list_set_In.
Qed.

End LinkFile.

Lemma stocked_lines_plain :
  Forall (fun l => one_line l = true /\ l <> EmptyString)
         [report_link 1; report_link 2; report_link 1].
Proof.
  repeat constructor; vm_compute; discriminate.
Qed.

Lemma links_file_is_reused_witness :
  links_file stocked
  = Some (String.concat NL [report_link 1; report_link 2; report_link 1]) /\
  get_all_report_links first_seen web_ok BASE_URL stocked
  = (log stocked [EvPrint MsgLoadingLinks],
     Ok ["https://www.erowid.org/experiences/exp.php?ID=1";
         "https://www.erowid.org/experiences/exp.php?ID=2"]) /\
  exists w' links,
    get_all_report_links first_seen web_ok BASE_URL stocked = (w', Ok links) /\
    NoDup links /\
    links_file w' = links_file stocked /\
    reports_file w' = reports_file stocked /\
    fetched (trace w') = fetched (trace stocked) /\
    written (trace w') = written (trace stocked) /\
    (forall l, In l links <->
               In l [report_link 1; report_link 2; report_link 1]).
Proof.
  split; [reflexivity|]. split; [vm_compute; reflexivity|].
  destruct (@links_file_is_reused
              DataFrame first_seen web_ok first_seen_NoDup first_seen_In
              BASE_URL stocked
              (String.concat NL [report_link 1; report_link 2; report_link 1])
              eq_refl)
    as (w' & links & E & Hnd & Hl & Hr & Hf & Hw & Hlines).
  exists w', links.
  repeat (split; [assumption|]).
  exact (proj1 (Hlines [report_link 1; report_link 2; report_link 1]
                       stocked_lines_plain (or_introl eq_refl))).
Defined.

(** ** More on the extraction *)

(** X16: only the rows of the dose chart with exactly five cells count:
    the Dose Chart field joins, one per line, the stripped cells of those
    rows, and is the placeholder when no row has five cells, even if the
    table has rows. *)
Theorem dose_chart_keeps_rows_of_five (p : Page) (href : string) :
  dose_chart_entries (dosechart_rows p)
  = map (fun cols => String.concat " | " (map strip cols))
        (filter (fun cols => Nat.eqb (List.length cols) 5) (dosechart_rows p)) /\
  (dose_chart_entries (dosechart_rows p) <> [] ->
   Dose_Chart (extract p href)
   = String.concat NL (dose_chart_entries (dosechart_rows p))) /\
  (forallb (fun cols => negb (Nat.eqb (List.length cols) 5)) (dosechart_rows p)
   = true ->
   Dose_Chart (extract p href) = "No Dose Chart Available").
Proof.
  assert (Hmap : forall rows,
             dose_chart_entries rows
             = map (fun cols => String.concat " | " (map strip cols))
                   (filter (fun cols => Nat.eqb (List.length cols) 5) rows)).
  { induction rows as [|cols rows IH]; [reflexivity|].
    unfold dose_chart_entries in *. cbn [flat_map filter].
    destruct (Nat.eqb (List.length cols) 5); cbn [app map]; now rewrite IH. }
  split; [apply Hmap|]. split.
  - unfold extract. cbn [Dose_Chart].
    destruct (dose_chart_entries (dosechart_rows p)); [congruence | reflexivity].
  - intros Hnone. unfold extract. cbn [Dose_Chart]. rewrite Hmap.
    replace (filter (fun cols => Nat.eqb (List.length cols) 5) (dosechart_rows p))
      with (@nil (list string)); [reflexivity|].
    symmetry. induction (dosechart_rows p) as [|cols rows IH]; [reflexivity|].
    cbn [forallb filter] in *. apply andb_true_iff in Hnone.
    destruct Hnone as [Hc Hrest]. apply negb_true_iff in Hc. rewrite Hc.
    now apply IH.
Qed.

(** ** The further properties on concrete runs *)


Lemma tidy_NoDup : NoDup (Link_column (table frame_read tidy)).
Proof.
  vm_compute. repeat constructor; simpl; intuition discriminate.
Qed.

Lemma cleanup_leaves_clean_table_witness :
  NoDup (Link_column (table frame_read tidy)) /\
  table frame_read (remove_duplicates_from_csv frame_read frame_write tidy)
  = table frame_read tidy.
Proof.
  split; [exact tidy_NoDup|].
  exact (@cleanup_leaves_clean_table
           DataFrame frame_read frame_write frame_read_write tidy tidy_NoDup).
Defined.

Lemma run_keeps_every_link_witness :
  (forall df, frame_read (frame_write df) = df) /\
  (let '(w', v', c) :=
     scrape_erowid_reports frame_read frame_write first_seen web_ok
                           (report_links_upto 3) stocked in
   forall k, In k (Link_column (table frame_read stocked)) ->
             In k (Link_column (table frame_read w'))).
Proof.
  split; [exact frame_read_write|].
  exact (@run_keeps_every_link
           DataFrame frame_read frame_write first_seen web_ok
           frame_read_write (report_links_upto 3) stocked).
Defined.

Lemma run_only_appends_witness :
  let '(w', v', c) :=
    scrape_erowid_reports frame_read frame_write first_seen web_ok
                          (report_links_upto 3) tidy in
  (exists added, table frame_read w' = table frame_read tidy ++ added) /\
  NoDup (Link_column (table frame_read w')).
Proof.
  exact (@run_only_appends
           DataFrame frame_read frame_write first_seen web_ok
           frame_read_write (report_links_upto 3) tidy tidy_NoDup).
Defined.


Lemma browser_visits_pending_links_once_witness :
  let '(w', v', c) :=
    scrape_erowid_reports frame_read frame_write last_seen web_ok
                          ("ftp://elsewhere/exp.php?ID=9"
                             :: report_links_upto 3)
                          stocked in
  exists visited,
    fetched (trace w') = fetched (trace stocked) ++ visited /\
    NoDup visited /\
    forall url, In url visited ->
                prefix SITE url = true /\
                In url ("ftp://elsewhere/exp.php?ID=9" :: report_links_upto 3) /\
                ~ In (Some url) (Link_column (table frame_read stocked)).
Proof.
  exact (@browser_visits_pending_links_once
           DataFrame frame_read frame_write last_seen web_ok
           last_seen_NoDup last_seen_In
           ("ftp://elsewhere/exp.php?ID=9" :: report_links_upto 3) stocked).
Defined.

Lemma complete_run_leaves_nothing_pending_witness :
  let '(w', v', c) :=
    scrape_erowid_reports frame_read frame_write first_seen web_ok
                          (report_links_upto 4) stocked in
  c = Next /\
  all_data v' = [] /\
  (forall l, In l (report_links_upto 4) ->
             In (Some l) (Link_column (table frame_read w'))) /\
  pending first_seen (report_links_upto 4)
          (load_scraped_links frame_read w') = [].
Proof.
  assert (H : forallb (extractable web_ok)
                      (pending first_seen (report_links_upto 4)
                               (load_scraped_links frame_read stocked)) = true)
    by (vm_compute; reflexivity).
  exact (@complete_run_leaves_nothing_pending
           DataFrame frame_read frame_write first_seen web_ok
           frame_read_write first_seen_NoDup first_seen_In
           (report_links_upto 4) stocked H).
Defined.

Lemma skipped_last_link_loses_the_tail_witness :
  let '(w', v', c) :=
    scrape_erowid_reports frame_read frame_write first_seen
                          (web_slow (report_link 3))
                          (report_links_upto 3) fresh in
  c = Next /\
  processed_count v' = List.length [report_link 1; report_link 2] /\
  List.length (all_data v')
  = List.length [report_link 1; report_link 2] mod BATCH_SIZE /\
  forall d, In d (all_data v') ->
            ~ In (Some (Link d)) (Link_column (table frame_read w')).
Proof.
  assert (H1 : pending first_seen (report_links_upto 3)
                       (load_scraped_links frame_read fresh)
               = [report_link 1; report_link 2] ++ [report_link 3])
    by (vm_compute; reflexivity).
  assert (H2 : forallb (extractable (web_slow (report_link 3)))
                       [report_link 1; report_link 2] = true)
    by (vm_compute; reflexivity).
  assert (H3 : web_slow (report_link 3) (report_link 3) = TimedOut)
    by (vm_compute; reflexivity).
  exact (@skipped_last_link_loses_the_tail
           DataFrame frame_read frame_write first_seen
           (web_slow (report_link 3))
           frame_read_write first_seen_NoDup first_seen_In
           (report_links_upto 3) [report_link 1; report_link 2]
           (report_link 3) fresh H1 H2 H3).
Defined.

Lemma every_record_is_saved_or_buffered_witness :
  let '(w', v', c) :=
    scrape_erowid_reports frame_read frame_write first_seen
                          (web_slow (report_link 4))
                          (report_links_upto 4) tidy in
  List.length (table frame_read w') + List.length (all_data v')
  = List.length (table frame_read tidy) + processed_count v'.
Proof.
  exact (@every_record_is_saved_or_buffered
           DataFrame frame_read frame_write first_seen
           (web_slow (report_link 4)) frame_read_write
           (report_links_upto 4) tidy tidy_NoDup).
Defined.

Lemma main_leaves_unique_links_witness :
  let '(w', r) := main frame_read frame_write first_seen web_ok listed in
  r = Ok tt /\ NoDup (Link_column (table frame_read w')).
Proof.
  assert (T : let '(w', r) :=
                main frame_read frame_write first_seen web_ok listed in
              r = Ok tt -> NoDup (Link_column (table frame_read w')))
    by exact (@main_leaves_unique_links
                DataFrame frame_read frame_write first_seen web_ok
                frame_read_write listed).
  revert T.
  destruct (main frame_read frame_write first_seen web_ok listed)
    as [w' r] eqn:E.
  intros T.
  assert (Hr : r = Ok tt) by (vm_compute in E; congruence).
  split; [exact Hr | exact (T Hr)].
Defined.

Lemma first_run_collects_site_links_witness :
  links_file fresh = None /\
  web_index BASE_URL = Loaded index_page /\
  exists w' links,
    get_all_report_links first_seen web_index BASE_URL fresh = (w', Ok links) /\
    NoDup links /\
    (forall l, In l links <-> In l (anchors index_page) /\ prefix SITE l = true) /\
    links_file w' = Some (String.concat NL links) /\
    reports_file w' = reports_file fresh /\
    fetched (trace w') = fetched (trace fresh) ++ [BASE_URL] /\
    written (trace w') = written (trace fresh) ++ [LINKS_FILE].
Proof.
  split; [reflexivity|]. split; [reflexivity|].
  exact (@first_run_collects_site_links
           DataFrame first_seen web_index first_seen_NoDup first_seen_In
           BASE_URL index_page fresh eq_refl eq_refl).
Defined.

Lemma index_page_links_one_line :
  forall l, In l (anchors index_page) -> prefix SITE l = true -> one_line l = true.
Proof.
  intros l [<-|[<-|[<-|[<-|[]]]]] H; vm_compute; vm_compute in H; congruence.
Qed.

Lemma saved_links_are_loaded_back_witness :
  exists w1 links1 w2 links2,
    get_all_report_links first_seen web_index BASE_URL fresh = (w1, Ok links1) /\
    get_all_report_links first_seen web_index BASE_URL w1 = (w2, Ok links2) /\
    (forall l, In l links2 <-> In l links1) /\
    NoDup links2 /\
    links_file w2 = links_file w1 /\
    fetched (trace w2) = fetched (trace w1).
Proof.
  exact (@saved_links_are_loaded_back
           DataFrame first_seen web_index first_seen_NoDup first_seen_In
           BASE_URL index_page fresh eq_refl eq_refl
           index_page_links_one_line).
Defined.

Lemma dose_chart_keeps_rows_of_five_witness :
  dose_chart_entries (dosechart_rows (dosed_page (report_link 5))) <> [] /\
  Dose_Chart (extract (dosed_page (report_link 5)) (report_link 5))
  = ("T+ 0:00 | 100 mg | oral | Caffeine | (pill)" ++ NL
     ++ "T+ 2:00 | 50 mg | oral | Caffeine | (tea)")%string.
Proof.
  assert (H : dose_chart_entries (dosechart_rows (dosed_page (report_link 5)))
              <> []) by (vm_compute; discriminate).
  split; [exact H|].
  destruct (dose_chart_keeps_rows_of_five
              (dosed_page (report_link 5)) (report_link 5))
    as (_ & Hsome & _).
  rewrite (Hsome H). reflexivity.
Defined.
